(** * Position-velocity diagram notebook (PVDiagramPlotting.ipynb)

    The notebook is a straight-line script of calls into matplotlib,
    astropy, spectral_cube and pvextractor.  The libraries are opaque
    collaborators: a value they return is represented by the call that
    produced it, a mutable object by a reference into the world, and
    their documented effects (read a cube, build a path, extract a slice,
    render pixels, write a file) act on that world.  The cells are
    embedded one by one in a state-and-error monad over it; their text is
    kept beside them, as Python parses it, for what is asked of the text
    itself: what it defines and what its calls are written on. *)

From stdpp Require Import gmap strings list.
From Stdlib Require Import ZArith Ascii.

Local Open Scope string_scope.
Local Open Scope Z_scope.

(** ** Python literals *)

(** A numeric literal as written in the source: [1], [5], [0.75], [30.5]. *)
Inductive Number :=
| Int (n : Z)
| Float (mantissa : Z) (places : nat).   (* mantissa / 10^places *)

#[global] Instance Number_eq_dec : EqDecision Number.
Proof. solve_decision. Defined.

(** The value of a keyword argument. *)
Inductive KwValue :=
| KStr (s : string)
| KNum (x : Number).

#[global] Instance KwValue_eq_dec : EqDecision KwValue.
Proof. solve_decision. Defined.

(** ** astropy.units *)

Module u.
Inductive Unit := h | deg | arcmin | km | s | div (a b : Unit).

#[global] Instance Unit_eq_dec : EqDecision Unit.
Proof. solve_decision. Defined.
End u.

Inductive Magnitude :=
| Scalar (x : Number)
| Array (xs : list Number).

#[global] Instance Magnitude_eq_dec : EqDecision Magnitude.
Proof. solve_decision. Defined.

(** [value * unit] *)
Record Quantity := { q_value : Magnitude; q_unit : u.Unit }.

#[global] Instance Quantity_eq_dec : EqDecision Quantity.
Proof. solve_decision. Defined.

(** ** astropy.coordinates *)

Record SkyCoordV := { sc_lon : Quantity; sc_lat : Quantity; sc_frame : string }.

#[global] Instance SkyCoordV_eq_dec : EqDecision SkyCoordV.
Proof. solve_decision. Defined.

(** ** The cube and the values derived from it *)

(** What is stored behind the cube's URL: the header keyword the notebook
    reads and the (uninterpreted) bytes. *)
Record FitsCube := { fc_radesys : string; fc_bytes : string }.

(** The object returned by [SpectralCube.read]: a reference to the cube
    data held in memory. *)
Definition Cube : Type := nat.

Inductive PathCoords :=
| Pixels (xy : list (Z * Z))
| Sky (coords : SkyCoordV).

#[global] Instance PathCoords_eq_dec : EqDecision PathCoords.
Proof. solve_decision. Defined.

(** The object returned by [pvextractor.Path]. *)
Record PVPath := { path_coords : PathCoords; path_width : option Quantity }.

#[global] Instance PVPath_eq_dec : EqDecision PVPath.
Proof. solve_decision. Defined.

(** The [PrimaryHDU] returned by [extract_pv_slice], identified by the
    arguments of the call; [None] is an omitted [spacing]. *)
Record PrimaryHDU :=
  { pv_cube : Cube; pv_path : PVPath; pv_spacing : option Number }.

#[global] Instance PrimaryHDU_eq_dec : EqDecision PrimaryHDU.
Proof. solve_decision. Defined.

Inductive Header := header (hdu : PrimaryHDU).

#[global] Instance Header_eq_dec : EqDecision Header.
Proof. solve_decision. Defined.

(** The two-dimensional objects spectral_cube derives from a cube. *)
Inductive LowerDim :=
| plane (c : Cube) (i : Z)           (* cube[i] *)
| maximum (c : Cube) (axis : Z).     (* cube.max(axis=axis) *)

#[global] Instance LowerDim_eq_dec : EqDecision LowerDim.
Proof. solve_decision. Defined.

Inductive Array2D :=
| value (p : LowerDim)               (* p.value *)
| data (hdu : PrimaryHDU).           (* hdu.data *)

#[global] Instance Array2D_eq_dec : EqDecision Array2D.
Proof. solve_decision. Defined.

Inductive WCSV :=
| cube_wcs (c : Cube)                (* cube.wcs *)
| celestial (w : WCSV)               (* w.celestial *)
| WCS_of (hd : Header).              (* wcs.WCS(hd) *)

#[global] Instance WCSV_eq_dec : EqDecision WCSV.
Proof. solve_decision. Defined.

(** [w.wcs.radesys], given the cubes in memory: the cube's keyword; a
    WCS made from a position-velocity header has no celestial frame. *)
Fixpoint radesys_of (cubes : list (string * FitsCube)) (w : WCSV) : option string :=
  match w with
  | cube_wcs c => (λ uc, fc_radesys uc.2) <$> cubes !! c
  | celestial w' => radesys_of cubes w'
  | WCS_of _ => Some EmptyString
  end.

(** ** matplotlib objects *)

Record AxesImage := { im_data : Array2D; im_origin : option string }.

(** What [Path.show_on_axis] adds to an axes. *)
Record PathPatches :=
  { pp_path : PVPath; pp_spacing : Number; pp_style : list (string * KwValue) }.

Record Axes :=
  { ax_position : Z;
    ax_projection : option WCSV;
    ax_images : list AxesImage;
    ax_patches : list PathPatches;
    ax_xlabel : option string;              (* as set by [set_xlabel] *)
    ax_ylabel : option string;              (* as set by [set_ylabel] *)
    ax_aspect : option Number;
    ax_format_unit : gmap nat u.Unit }.     (* per coordinate of ax.coords *)

(** Python object references: a figure by its index in the world, an
    axes, image or colorbar by its index in the owner. *)
Definition FigureRef : Type := nat.
Definition AxesRef : Type := FigureRef * nat.
Definition ImageRef : Type := AxesRef * nat.
Definition ColorbarRef : Type := FigureRef * nat.
Definition CoordRef : Type := AxesRef * nat.

Record Colorbar := { cb_mappable : ImageRef; cb_label : option string }.

Record Figure :=
  { fig_facecolor : option string;
    fig_figsize : option (Number * Number);
    fig_axes : list Axes;
    fig_colorbars : list Colorbar }.

(** What an axis shows as its label when the figure is drawn: the text
    the code set, or else, on axes made with a WCS projection, the
    default label that astropy's WCS axes take from that coordinate of
    the WCS.  Plain axes show nothing unless a label was set. *)
Inductive AxisLabel :=
| Text (s : string)
| DefaultOf (w : WCSV) (coordinate : nat).

Definition label_drawn (projection : option WCSV) (coordinate : nat)
    (set : option string) : option AxisLabel :=
  match set with
  | Some s => Some (Text s)
  | None => (λ w, DefaultOf w coordinate) <$> projection
  end.

Definition labels_drawn (a : Axes) : option AxisLabel * option AxisLabel :=
  (label_drawn (ax_projection a) 0 (ax_xlabel a),
   label_drawn (ax_projection a) 1 (ax_ylabel a)).

(** ** Files *)

(** A picture is what [savefig] drew: the figure, the format and the
    bounding box.  It is not the bytes of the file, which for a PDF also
    hold the date of creation: two pictures of one figure made at
    different times are different files. *)
Inductive File :=
| Raw (bytes : string)
| Fits (hdu : PrimaryHDU)
| Picture (format : string) (fig : Figure) (bbox_inches : option string).

(** Writing a file creates it or replaces what was there. *)
Definition write_file (fs : gmap string File) (nf : string * File)
  : gmap string File := <[nf.1 := nf.2]> fs.

Definition fetch (url : string) (web : gmap string FitsCube) : option FitsCube :=
  web !! url.

(** ** Calls, imports and the event log *)

(** Classes whose methods the notebook invokes on returned objects. *)
Inductive Class :=
| RcParams | AxesC | FigureC | ColorbarC      (* matplotlib *)
| UnitC | CoordinatesMap | CoordinateHelper | HDU   (* astropy *)
| SpectralCubeC                               (* spectral_cube *)
| PathC.                                      (* pvextractor *)

#[global] Instance Class_eq_dec : EqDecision Class.
Proof. solve_decision. Defined.

Definition class_package (c : Class) : string :=
  match c with
  | RcParams | AxesC | FigureC | ColorbarC => "matplotlib"
  | UnitC | CoordinatesMap | CoordinateHelper | HDU => "astropy"
  | SpectralCubeC => "spectral_cube"
  | PathC => "pvextractor"
  end.

(** What a call expression resolves through: a global name of the
    notebook (followed by attributes) or a method of an object's class. *)
Inductive Callee :=
| Global (name : string) (attrs : list string)
| Method (cls : Class) (name : string).

#[global] Instance Callee_eq_dec : EqDecision Callee.
Proof. solve_decision. Defined.

(** One name bound by an import statement. *)
Record Import :=
  { imp_module : list string; imp_symbol : option string; imp_as : string }.

(** The documented effect for which a collaborator is invoked. *)
Inductive Effect :=
| Other
| ReadCube (c : Cube)
| BuildPath (p : PVPath)
| ExtractSlice (hdu : PrimaryHDU)
| RenderPixels (ax : AxesRef) (img : Array2D)
| WriteFile (name : string) (f : File).

Inductive Event :=
| EvImport (i : Import)
| EvCall (f : Callee) (e : Effect).

(** ** The world *)

Record World :=
  { remote : gmap string FitsCube;      (* resources reachable by URL *)
    disk : gmap string File;            (* the working directory at start *)
    written : list (string * File);     (* the files written since, in order *)
    namespace : gmap string Import;     (* global names bound by imports *)
    rcParams : gmap string string;
    cubes : list (string * FitsCube);   (* cubes in memory, with their source *)
    figures : list Figure;              (* every figure object, by reference *)
    managers : list FigureRef;          (* pyplot's open figures, current last *)
    outputs : list Figure;              (* figures shown in the notebook *)
    log : list Event }.

(** Field updates. *)
Definition set_written (f : list (string * File) → list (string * File))
    (w : World) : World :=
  {| remote := remote w; disk := disk w; written := f (written w);
     namespace := namespace w; rcParams := rcParams w; cubes := cubes w;
     figures := figures w; managers := managers w; outputs := outputs w;
     log := log w |}.

Definition set_namespace (f : gmap string Import → gmap string Import)
    (w : World) : World :=
  {| remote := remote w; disk := disk w; written := written w;
     namespace := f (namespace w); rcParams := rcParams w;
     cubes := cubes w; figures := figures w; managers := managers w;
     outputs := outputs w; log := log w |}.

Definition set_rcParams (f : gmap string string → gmap string string)
    (w : World) : World :=
  {| remote := remote w; disk := disk w; written := written w;
     namespace := namespace w; rcParams := f (rcParams w);
     cubes := cubes w; figures := figures w; managers := managers w;
     outputs := outputs w; log := log w |}.

Definition set_cubes (f : list (string * FitsCube) → list (string * FitsCube))
    (w : World) : World :=
  {| remote := remote w; disk := disk w; written := written w;
     namespace := namespace w; rcParams := rcParams w;
     cubes := f (cubes w); figures := figures w; managers := managers w;
     outputs := outputs w; log := log w |}.

Definition set_figures (f : list Figure → list Figure) (w : World) : World :=
  {| remote := remote w; disk := disk w; written := written w;
     namespace := namespace w; rcParams := rcParams w; cubes := cubes w;
     figures := f (figures w); managers := managers w;
     outputs := outputs w; log := log w |}.

Definition set_managers (f : list FigureRef → list FigureRef)
    (w : World) : World :=
  {| remote := remote w; disk := disk w; written := written w;
     namespace := namespace w; rcParams := rcParams w; cubes := cubes w;
     figures := figures w; managers := f (managers w);
     outputs := outputs w; log := log w |}.

Definition set_outputs (f : list Figure → list Figure) (w : World) : World :=
  {| remote := remote w; disk := disk w; written := written w;
     namespace := namespace w; rcParams := rcParams w; cubes := cubes w;
     figures := figures w; managers := managers w;
     outputs := f (outputs w); log := log w |}.

Definition set_log (f : list Event → list Event) (w : World) : World :=
  {| remote := remote w; disk := disk w; written := written w;
     namespace := namespace w; rcParams := rcParams w; cubes := cubes w;
     figures := figures w; managers := managers w; outputs := outputs w;
     log := f (log w) |}.

(** The working directory as it stands. *)
Definition files (w : World) : gmap string File :=
  foldl write_file (disk w) (written w).

(** A fresh kernel started on the given persistent state. *)
Definition boot (web : gmap string FitsCube) (fs : gmap string File) : World :=
  {| remote := web; disk := fs; written := []; namespace := ∅; rcParams := ∅;
     cubes := []; figures := []; managers := []; outputs := []; log := [] |}.

(** ** The notebook monad: state plus Python exceptions *)

Inductive PyError :=
| NameError (name : string)
| URLError (url : string)
| OSError (file : string)
| AttributeError (attr : string)
| IndexError (i : nat)
| ReferenceError.                        (* a reference to no live object *)

Definition NB (A : Type) : Type := World → PyError + A * World.

#[global] Instance NB_ret : MRet NB := λ A a w, inr (a, w).
#[global] Instance NB_bind : MBind NB := λ A B k m w,
  match m w with
  | inl e => inl e
  | inr (a, w') => k a w'
  end.

Definition raise {A} (e : PyError) : NB A := λ _, inl e.
Definition get : NB World := λ w, inr (w, w).
Definition modify (f : World → World) : NB unit := λ w, inr (tt, f w).

(** Look a reference up; a dangling one is an error of the model. *)
Definition deref {A} (o : option A) : NB A :=
  match o with Some a => mret a | None => raise ReferenceError end.

(** [import]: bind [imp_as] in the global namespace. *)
Definition import (i : Import) : NB unit :=
  modify (set_namespace <[imp_as i := i]>);;
  modify (set_log (λ l, (l ++ [EvImport i])%list)).

(** Evaluating the function expression of a call: a global name must be
    bound. *)
Definition resolve (f : Callee) : NB unit :=
  w ← get;
  match f with
  | Global name _ =>
      match namespace w !! name with
      | Some _ => mret tt
      | None => raise (NameError name)
      end
  | Method _ _ => mret tt
  end.

Definition emit (f : Callee) (e : Effect) : NB unit :=
  modify (set_log (λ l, (l ++ [EvCall f e])%list)).

Definition call (f : Callee) (e : Effect) : NB unit :=
  resolve f;; emit f e.

(** ** The collaborators

    None of these functions is defined in the repository: each stands for
    a function of an imported library and does what that function is
    documented to do, on the world above. *)

Module SpectralCube.
(** [SpectralCube.read(url)] *)
Definition read (url : string) : NB Cube :=
  let f := Global "SpectralCube" ["read"] in
  resolve f;;
  w ← get;
  match fetch url (remote w) with
  | Some fc =>
      let c := length (cubes w) in
      modify (set_cubes (λ l, (l ++ [(url, fc)])%list));;
      emit f (ReadCube c);; mret c
  | None => raise (URLError url)
  end.

(** [cube[i]] *)
Definition getitem (c : Cube) (i : Z) : NB LowerDim :=
  call (Method SpectralCubeC "__getitem__") Other;; mret (plane c i).

(** [cube.max(axis=axis)] *)
Definition max (c : Cube) (axis : Z) : NB LowerDim :=
  call (Method SpectralCubeC "max") Other;; mret (maximum c axis).
End SpectralCube.

(** [value * unit] and [a / b] on [astropy.units] objects. *)
Definition times (v : Magnitude) (un : u.Unit) : NB Quantity :=
  call (Method UnitC "__rmul__") Other;; mret {| q_value := v; q_unit := un |}.

Definition per (a b : u.Unit) : NB u.Unit :=
  call (Method UnitC "__truediv__") Other;; mret (u.div a b).

(** [SkyCoord(lon, lat, frame=frame)] *)
Definition SkyCoord (lon lat : Quantity) (frame : string) : NB SkyCoordV :=
  call (Global "SkyCoord" []) Other;;
  mret {| sc_lon := lon; sc_lat := lat; sc_frame := frame |}.

(** [Path(coords, width=width)] *)
Definition Path (coords : PathCoords) (width : option Quantity) : NB PVPath :=
  let p := {| path_coords := coords; path_width := width |} in
  call (Global "Path" []) (BuildPath p);; mret p.

(** [extract_pv_slice(cube=cube, path=path, spacing=spacing)] *)
Definition extract_pv_slice (cube : Cube) (path : PVPath) (spacing : option Number)
  : NB PrimaryHDU :=
  let hdu := {| pv_cube := cube; pv_path := path; pv_spacing := spacing |} in
  call (Global "extract_pv_slice" []) (ExtractSlice hdu);; mret hdu.

Module wcs.
(** [wcs.WCS(header)] *)
Definition WCS (hd : Header) : NB WCSV :=
  call (Global "wcs" ["WCS"]) Other;; mret (WCS_of hd).
End wcs.

(** [w.wcs.radesys] *)
Definition radesys (w : WCSV) : NB string :=
  st ← get; deref (radesys_of (cubes st) w).

(** *** Axes, figures and colorbars *)

Definition get_figure (fig : FigureRef) : NB Figure :=
  w ← get; deref (figures w !! fig).

Definition get_axes (ax : AxesRef) : NB Axes :=
  f ← get_figure ax.1; deref (fig_axes f !! ax.2).

Definition put_figure (fig : FigureRef) (f : Figure) : NB unit :=
  modify (set_figures <[fig := f]>).

Definition put_axes (ax : AxesRef) (a : Axes) : NB unit :=
  f ← get_figure ax.1;
  put_figure ax.1
    {| fig_facecolor := fig_facecolor f; fig_figsize := fig_figsize f;
       fig_axes := <[ax.2 := a]> (fig_axes f);
       fig_colorbars := fig_colorbars f |}.

(** [ax.imshow(X, origin=origin)] *)
Definition imshow (ax : AxesRef) (X : Array2D) (origin : option string) : NB ImageRef :=
  a ← get_axes ax;
  put_axes ax
    {| ax_position := ax_position a; ax_projection := ax_projection a;
       ax_images := (ax_images a ++ [{| im_data := X; im_origin := origin |}])%list;
       ax_patches := ax_patches a; ax_xlabel := ax_xlabel a;
       ax_ylabel := ax_ylabel a; ax_aspect := ax_aspect a;
       ax_format_unit := ax_format_unit a |};;
  emit (Method AxesC "imshow") (RenderPixels ax X);;
  mret (ax, length (ax_images a)).

(** [ax.set_xlabel(s)] *)
Definition set_xlabel (ax : AxesRef) (s : string) : NB unit :=
  a ← get_axes ax;
  put_axes ax
    {| ax_position := ax_position a; ax_projection := ax_projection a;
       ax_images := ax_images a; ax_patches := ax_patches a;
       ax_xlabel := Some s;
       ax_ylabel := ax_ylabel a; ax_aspect := ax_aspect a;
       ax_format_unit := ax_format_unit a |};;
  emit (Method AxesC "set_xlabel") Other.

(** [ax.set_ylabel(s)] *)
Definition set_ylabel (ax : AxesRef) (s : string) : NB unit :=
  a ← get_axes ax;
  put_axes ax
    {| ax_position := ax_position a; ax_projection := ax_projection a;
       ax_images := ax_images a; ax_patches := ax_patches a;
       ax_xlabel := ax_xlabel a;
       ax_ylabel := Some s;
       ax_aspect := ax_aspect a; ax_format_unit := ax_format_unit a |};;
  emit (Method AxesC "set_ylabel") Other.

(** [ax.set_aspect(x)] *)
Definition set_aspect (ax : AxesRef) (x : Number) : NB unit :=
  a ← get_axes ax;
  put_axes ax
    {| ax_position := ax_position a; ax_projection := ax_projection a;
       ax_images := ax_images a; ax_patches := ax_patches a;
       ax_xlabel := ax_xlabel a; ax_ylabel := ax_ylabel a;
       ax_aspect := Some x;
       ax_format_unit := ax_format_unit a |};;
  emit (Method AxesC "set_aspect") Other.

(** [ax.coords[i]]: only axes made with a WCS projection have [coords],
    and the projections used here are two-dimensional. *)
Definition coords (ax : AxesRef) (i : nat) : NB CoordRef :=
  a ← get_axes ax;
  match ax_projection a with
  | None => raise (AttributeError "coords")
  | Some _ =>
      if (i <? 2)%nat
      then emit (Method CoordinatesMap "__getitem__") Other;; mret (ax, i)
      else raise (IndexError i)
  end.

(** [coord.set_format_unit(un)] *)
Definition set_format_unit (c : CoordRef) (un : u.Unit) : NB unit :=
  a ← get_axes c.1;
  put_axes c.1
    {| ax_position := ax_position a; ax_projection := ax_projection a;
       ax_images := ax_images a; ax_patches := ax_patches a;
       ax_xlabel := ax_xlabel a; ax_ylabel := ax_ylabel a;
       ax_aspect := ax_aspect a;
       ax_format_unit := <[c.2 := un]> (ax_format_unit a) |};;
  emit (Method CoordinateHelper "set_format_unit") Other.

(** [path.show_on_axis(ax, spacing=spacing, **style)] *)
Definition show_on_axis (p : PVPath) (ax : AxesRef) (spacing : Number)
    (style : list (string * KwValue)) : NB unit :=
  a ← get_axes ax;
  put_axes ax
    {| ax_position := ax_position a; ax_projection := ax_projection a;
       ax_images := ax_images a;
       ax_patches :=
         (ax_patches a ++
            [{| pp_path := p; pp_spacing := spacing; pp_style := style |}])%list;
       ax_xlabel := ax_xlabel a; ax_ylabel := ax_ylabel a;
       ax_aspect := ax_aspect a; ax_format_unit := ax_format_unit a |};;
  emit (Method PathC "show_on_axis") Other.

Module plt.
(** [plt.rcParams[key] = val] *)
Definition rcParams_setitem (key val : string) : NB unit :=
  modify (set_rcParams <[key := val]>);;
  emit (Method RcParams "__setitem__") Other.

(** A new figure becomes pyplot's current figure. *)
Definition new_figure (figsize : option (Number * Number)) : NB FigureRef :=
  w ← get;
  let f := {| fig_facecolor := rcParams w !! "figure.facecolor";
              fig_figsize := figsize; fig_axes := []; fig_colorbars := [] |} in
  modify (set_figures (λ l, (l ++ [f])%list));;
  modify (set_managers (λ l, (l ++ [length (figures w)])%list));;
  mret (length (figures w)).

(** [plt.figure(figsize=figsize)] *)
Definition figure (figsize : Number * Number) : NB FigureRef :=
  call (Global "plt" ["figure"]) Other;; new_figure (Some figsize).

(** [plt.gcf()]: the current figure, made if there is none. *)
Definition gcf : NB FigureRef :=
  w ← get;
  match last (managers w) with
  | Some fig => mret fig
  | None => new_figure None
  end.

(** [fig.add_subplot(pos, projection=projection)]: no label is set on
    the new axes; what they show without one is [label_drawn]. *)
Definition add_subplot (fig : FigureRef) (pos : Z) (projection : option WCSV)
  : NB AxesRef :=
  f ← get_figure fig;
  let a := {| ax_position := pos; ax_projection := projection;
              ax_images := []; ax_patches := [];
              ax_xlabel := None; ax_ylabel := None; ax_aspect := None;
              ax_format_unit := ∅ |} in
  put_figure fig
    {| fig_facecolor := fig_facecolor f; fig_figsize := fig_figsize f;
       fig_axes := (fig_axes f ++ [a])%list;
       fig_colorbars := fig_colorbars f |};;
  mret (fig, length (fig_axes f)).

(** [plt.subplot(pos, projection=projection)]; no cell asks twice for
    the same position of one figure, so an axes is always added. *)
Definition subplot (pos : Z) (projection : option WCSV) : NB AxesRef :=
  call (Global "plt" ["subplot"]) Other;;
  fig ← gcf;
  add_subplot fig pos projection.

(** [plt.gca()]: the latest axes of the current figure, made if there
    is none. *)
Definition gca : NB AxesRef :=
  fig ← gcf;
  f ← get_figure fig;
  match fig_axes f with
  | [] => add_subplot fig 111 None
  | _ :: l => mret (fig, length l)
  end.

(** [plt.imshow(X, origin=origin)] *)
Definition imshow (X : Array2D) (origin : option string) : NB ImageRef :=
  resolve (Global "plt" ["imshow"]);;
  ax ← gca;
  a ← get_axes ax;
  put_axes ax
    {| ax_position := ax_position a; ax_projection := ax_projection a;
       ax_images := (ax_images a ++ [{| im_data := X; im_origin := origin |}])%list;
       ax_patches := ax_patches a; ax_xlabel := ax_xlabel a;
       ax_ylabel := ax_ylabel a; ax_aspect := ax_aspect a;
       ax_format_unit := ax_format_unit a |};;
  emit (Global "plt" ["imshow"]) (RenderPixels ax X);;
  mret (ax, length (ax_images a)).

(** [plt.colorbar(mappable=im)] *)
Definition colorbar (mappable : ImageRef) : NB ColorbarRef :=
  call (Global "plt" ["colorbar"]) Other;;
  fig ← gcf;
  f ← get_figure fig;
  put_figure fig
    {| fig_facecolor := fig_facecolor f; fig_figsize := fig_figsize f;
       fig_axes := fig_axes f;
       fig_colorbars :=
         (fig_colorbars f ++ [{| cb_mappable := mappable; cb_label := None |}])%list |};;
  mret (fig, length (fig_colorbars f)).
End plt.

(** [cb.set_label(s)] *)
Definition set_label (cb : ColorbarRef) (s : string) : NB unit :=
  f ← get_figure cb.1;
  c ← deref (fig_colorbars f !! cb.2);
  put_figure cb.1
    {| fig_facecolor := fig_facecolor f; fig_figsize := fig_figsize f;
       fig_axes := fig_axes f;
       fig_colorbars :=
         <[cb.2 := {| cb_mappable := cb_mappable c; cb_label := Some s |}]>
           (fig_colorbars f) |};;
  emit (Method ColorbarC "set_label") Other.

(** The part of a file name after its last dot. *)
Fixpoint extension (name : string) : option string :=
  match name with
  | EmptyString => None
  | String c rest =>
      match extension rest with
      | Some e => Some e
      | None => if Ascii.eqb c "."%char then Some rest else None
      end
  end.

(** [fig.savefig(fname, bbox_inches=bbox_inches)]: the format follows the
    extension (png without one); an existing file is replaced. *)
Definition savefig (fig : FigureRef) (fname : string) (bbox_inches : option string)
  : NB unit :=
  f ← get_figure fig;
  let pic := Picture (default "png" (extension fname)) f bbox_inches in
  modify (set_written (λ l, (l ++ [(fname, pic)])%list));;
  emit (Method FigureC "savefig") (WriteFile fname pic).

(** Modelled from the spec: astropy's [writeto] is not part of the
    repository; it is invoked for its documented effect, "write a file".
    [hdu.writeto(name, overwrite=overwrite)] stores the HDU under [name];
    when the file exists it is replaced if [overwrite] is set and the
    call raises [OSError] otherwise. *)
Definition writeto (hdu : PrimaryHDU) (name : string) (overwrite : bool) : NB unit :=
  w ← get;
  (if overwrite then mret tt
   else match files w !! name with
        | Some _ => raise (OSError name)
        | None => mret tt
        end);;
  modify (set_written (λ l, (l ++ [(name, Fits hdu)])%list));;
  emit (Method HDU "writeto") (WriteFile name (Fits hdu)).

(** ** The notebook front end *)

(** After a code cell the inline backend shows every open figure in the
    cell's output and closes it. *)
Definition flush_figures : NB unit :=
  w ← get;
  shown ← deref (mapM (λ fig, figures w !! fig) (managers w));
  modify (set_outputs (λ l, (l ++ shown)%list));;
  modify (set_managers (λ _, [])).

Definition run_cell {A} (cell : NB A) : NB A :=
  a ← cell; flush_figures;; mret a.

Definition import_as (module : list string) (asname : string) : NB unit :=
  import {| imp_module := module; imp_symbol := None; imp_as := asname |}.

Definition from_import (module : list string) (symbol asname : string) : NB unit :=
  import {| imp_module := module; imp_symbol := Some symbol; imp_as := asname |}.

(** ** The code cells, by cell id *)

(** Cell 2, lines 44-53 of the notebook file. *)
Definition cell_2 : NB unit :=
  import_as ["matplotlib"; "pyplot"] "plt";;
  from_import ["astropy"] "units" "u";;
  from_import ["astropy"] "wcs" "wcs";;
  from_import ["spectral_cube"] "SpectralCube" "SpectralCube";;
  from_import ["pvextractor"] "extract_pv_slice" "extract_pv_slice";;
  from_import ["pvextractor"] "Path" "Path";;
  plt.rcParams_setitem "figure.facecolor" "w".

(** The address cell 4 reads the cube from. *)
Definition cube_address : string :=
  "http://www.astropy.org/astropy-data/l1448/l1448_13co.fits".

(** Cell 4, lines 71-72 of the notebook file.
    The cell ends by showing [cube]. *)
Definition cell_4 : NB Cube :=
  cube ← SpectralCube.read cube_address;
  mret cube.

(** Cell 6, line 91 of the notebook file. *)
Definition cell_6 (cube : Cube) : NB unit :=
  sl ← SpectralCube.getitem cube 25;
  plt.imshow (value sl) (Some "lower");;
  mret tt.

(** Cell 8, line 115 of the notebook file. *)
Definition cell_8 : NB PVPath :=
  Path (Pixels [(20, 20); (40, 40); (60, 20)]) None.

(** Cell 10, lines 133-137 of the notebook file. *)
Definition cell_10 (cube : Cube) (path : PVPath) : NB unit :=
  ax ← plt.subplot 111 (Some (celestial (cube_wcs cube)));
  sl ← SpectralCube.getitem cube 25;
  imshow ax (value sl) None;;
  show_on_axis path ax (Int 1) [("color", KStr "r")];;
  r ← radesys (cube_wcs cube);
  set_xlabel ax ("Right Ascension [" +:+ r +:+ "]");;
  r ← radesys (cube_wcs cube);
  set_ylabel ax ("Declination [" +:+ r +:+ "]").

(** Cell 13, lines 163-164 of the notebook file.
    The cell ends by showing [pvdiagram]. *)
Definition cell_13 (cube : Cube) (path : PVPath) : NB PrimaryHDU :=
  pvdiagram ← extract_pv_slice cube path (Some (Int 1));
  mret pvdiagram.

(** Cell 15, lines 182-188 of the notebook file.
    The projection is built in the argument of [plt.subplot]. *)
Definition cell_15 (pvdiagram : PrimaryHDU) : NB unit :=
  proj ← wcs.WCS (header pvdiagram);
  ax ← plt.subplot 111 (Some proj);
  im ← imshow ax (data pvdiagram) None;
  cb ← plt.colorbar im;
  set_label cb "Brightness Temperature [K]".

(** Cell 17, lines 206-219 of the notebook file. *)
Definition cell_17 (pvdiagram : PrimaryHDU) : NB unit :=
  ww ← wcs.WCS (header pvdiagram);
  ax ← plt.subplot 111 (Some ww);
  im ← imshow ax (data pvdiagram) None;
  cb ← plt.colorbar im;
  set_label cb "Brightness Temperature [K]";;
  ax0 ← coords ax 0;
  set_format_unit ax0 u.arcmin;;
  ax1 ← coords ax 1;
  kms ← per u.km u.s;
  set_format_unit ax1 kms;;
  set_ylabel ax "Velocity [km/s]";;
  set_xlabel ax "Offset [arcmin]".

(** Cell 19, line 240 of the notebook file. *)
Definition cell_19 (cube : Cube) : NB Array2D :=
  m ← SpectralCube.max cube 0;
  mret (value m).

(** Cell 20, lines 250-268 of the notebook file. *)
Definition cell_20 (cube : Cube) (path : PVPath) (pvdiagram : PrimaryHDU)
    (mx : Array2D) : NB unit :=
  plt.figure (Int 12, Int 6);;
  ax ← plt.subplot 121 (Some (celestial (cube_wcs cube)));
  imshow ax mx None;;
  show_on_axis path ax (Int 1) [("color", KStr "r")];;
  ww ← wcs.WCS (header pvdiagram);
  r ← radesys (cube_wcs cube);
  set_xlabel ax ("Right Ascension [" +:+ r +:+ "]");;
  r ← radesys (cube_wcs cube);
  set_ylabel ax ("Declination [" +:+ r +:+ "]");;
  ax ← plt.subplot 122 (Some ww);
  im ← imshow ax (data pvdiagram) None;
  ax0 ← coords ax 0;
  set_format_unit ax0 u.arcmin;;
  ax1 ← coords ax 1;
  kms ← per u.km u.s;
  set_format_unit ax1 kms;;
  set_ylabel ax "Velocity [km/s]";;
  set_xlabel ax "Offset [arcmin]".

(** Cell 23, line 294 of the notebook file. *)
Definition cell_23 : NB unit :=
  from_import ["astropy"; "coordinates"] "SkyCoord" "SkyCoord".

(** Cell 24, lines 304-306 of the notebook file. *)
Definition cell_24 : NB PVPath :=
  lon ← times (Array [Float 34 1; Float 343 2; Float 342 2]) u.h;
  lat ← times (Array [Float 305 1; Float 3075 2; Float 305 1]) u.deg;
  sc ← SkyCoord lon lat "fk5";
  Path (Sky sc) None.

(** Cell 26, lines 324-328 of the notebook file. *)
Definition cell_26 (cube : Cube) (skypath : PVPath) : NB unit :=
  ax ← plt.subplot 111 (Some (celestial (cube_wcs cube)));
  sl ← SpectralCube.getitem cube 25;
  imshow ax (value sl) None;;
  show_on_axis skypath ax (Int 1) [("color", KStr "r")];;
  r ← radesys (cube_wcs cube);
  set_xlabel ax ("Right Ascension [" +:+ r +:+ "]");;
  r ← radesys (cube_wcs cube);
  set_ylabel ax ("Declination [" +:+ r +:+ "]").

(** Cell 27, lines 338-339 of the notebook file.
    The cell ends by showing [pvdiagram2]. *)
Definition cell_27 (cube : Cube) (skypath : PVPath) : NB PrimaryHDU :=
  pvdiagram2 ← extract_pv_slice cube skypath None;
  mret pvdiagram2.

(** Cell 28, lines 349-367 of the notebook file. *)
Definition cell_28 (cube : Cube) (skypath : PVPath) (pvdiagram2 : PrimaryHDU)
    (mx : Array2D) : NB unit :=
  plt.figure (Int 12, Int 6);;
  ax ← plt.subplot 121 (Some (celestial (cube_wcs cube)));
  imshow ax mx None;;
  show_on_axis skypath ax (Int 1) [("color", KStr "r")];;
  ww ← wcs.WCS (header pvdiagram2);
  r ← radesys (cube_wcs cube);
  set_xlabel ax ("Right Ascension [" +:+ r +:+ "]");;
  r ← radesys (cube_wcs cube);
  set_ylabel ax ("Declination [" +:+ r +:+ "]");;
  ax ← plt.subplot 122 (Some ww);
  im ← imshow ax (data pvdiagram2) None;
  ax0 ← coords ax 0;
  set_format_unit ax0 u.arcmin;;
  ax1 ← coords ax 1;
  kms ← per u.km u.s;
  set_format_unit ax1 kms;;
  set_ylabel ax "Velocity [km/s]";;
  set_xlabel ax "Offset [arcmin]".

(** Cell 30, lines 385-405 of the notebook file. *)
Definition cell_30 (cube : Cube) (skypath : PVPath) (pvdiagram2 : PrimaryHDU)
    (mx : Array2D) : NB unit :=
  plt.figure (Int 12, Int 6);;
  ax ← plt.subplot 121 (Some (celestial (cube_wcs cube)));
  imshow ax mx None;;
  show_on_axis skypath ax (Int 1) [("color", KStr "r")];;
  ww ← wcs.WCS (header pvdiagram2);
  r ← radesys (cube_wcs cube);
  set_xlabel ax ("Right Ascension [" +:+ r +:+ "]");;
  r ← radesys (cube_wcs cube);
  set_ylabel ax ("Declination [" +:+ r +:+ "]");;
  ax ← plt.subplot 122 (Some ww);
  im ← imshow ax (data pvdiagram2) None;
  set_aspect ax (Int 2);;
  ax0 ← coords ax 0;
  set_format_unit ax0 u.arcmin;;
  ax1 ← coords ax 1;
  kms ← per u.km u.s;
  set_format_unit ax1 kms;;
  set_ylabel ax "Velocity [km/s]";;
  set_xlabel ax "Offset [arcmin]".

(** Cell 33, lines 433-436 of the notebook file. *)
Definition cell_33 : NB PVPath :=
  lon ← times (Array [Float 34 1; Float 3429 3; Float 342 2]) u.h;
  lat ← times (Array [Float 305 1; Float 3075 2; Float 305 1]) u.deg;
  sc ← SkyCoord lon lat "fk5";
  width ← times (Scalar (Int 2)) u.arcmin;
  Path (Sky sc) (Some width).

(** Cell 34, line 446 of the notebook file. *)
Definition cell_34 (cube : Cube) (skypath2 : PVPath) : NB PrimaryHDU :=
  extract_pv_slice cube skypath2 None.

(** Cell 36, lines 464-488 of the notebook file. *)
Definition cell_36 (cube : Cube) (skypath2 : PVPath) (pvdiagram3 : PrimaryHDU)
    (mx : Array2D) : NB unit :=
  plt.figure (Int 12, Int 6);;
  ax ← plt.subplot 121 (Some (celestial (cube_wcs cube)));
  imshow ax mx None;;
  show_on_axis skypath2 ax (Int 1)
    [("edgecolor", KStr "r"); ("linestyle", KStr ":"); ("linewidth", KNum (Float 75 2))];;
  ww ← wcs.WCS (header pvdiagram3);
  r ← radesys (cube_wcs cube);
  set_xlabel ax ("Right Ascension [" +:+ r +:+ "]");;
  r ← radesys (cube_wcs cube);
  set_ylabel ax ("Declination [" +:+ r +:+ "]");;
  ax ← plt.subplot 122 (Some ww);
  im ← imshow ax (data pvdiagram3) None;
  set_aspect ax (Float 25 1);;
  cb ← plt.colorbar im;
  set_label cb "Brightness Temperature [K]";;
  ax0 ← coords ax 0;
  set_format_unit ax0 u.arcmin;;
  ax1 ← coords ax 1;
  kms ← per u.km u.s;
  set_format_unit ax1 kms;;
  set_ylabel ax "Velocity [km/s]";;
  set_xlabel ax "Offset [arcmin]".

(** Cell 38, lines 508-531 of the notebook file. *)
Definition cell_38 (cube : Cube) (skypath2 : PVPath) (mx : Array2D)
  : NB (PrimaryHDU * FigureRef) :=
  pvdiagram4 ← extract_pv_slice cube skypath2 (Some (Int 5));
  fig ← plt.figure (Int 12, Int 6);
  ax ← plt.subplot 121 (Some (celestial (cube_wcs cube)));
  imshow ax mx None;;
  show_on_axis skypath2 ax (Int 5)
    [("edgecolor", KStr "w"); ("linestyle", KStr ":"); ("linewidth", KNum (Float 75 2))];;
  ww ← wcs.WCS (header pvdiagram4);
  r ← radesys (cube_wcs cube);
  set_xlabel ax ("Right Ascension [" +:+ r +:+ "]");;
  r ← radesys (cube_wcs cube);
  set_ylabel ax ("Declination [" +:+ r +:+ "]");;
  ax ← plt.subplot 122 (Some ww);
  im ← imshow ax (data pvdiagram4) None;
  cb ← plt.colorbar im;
  set_label cb "Brightness Temperature [K]";;
  set_aspect ax (Float 5 1);;
  ax0 ← coords ax 0;
  set_format_unit ax0 u.arcmin;;
  ax1 ← coords ax 1;
  kms ← per u.km u.s;
  set_format_unit ax1 kms;;
  set_ylabel ax "Velocity [km/s]";;
  set_xlabel ax "Offset [arcmin]";;
  mret (pvdiagram4, fig).

(** Cell 40, line 551 of the notebook file. *)
Definition cell_40 (pvdiagram : PrimaryHDU) : NB unit :=
  writeto pvdiagram "saved_pvdiagram.fits" true.

(** Cell 42, lines 569-570 of the notebook file. *)
Definition cell_42 (fig : FigureRef) : NB unit :=
  savefig fig "saved_pvdiagram.png" (Some "tight");;
  savefig fig "saved_pvdiagram.pdf" (Some "tight").

(** ** A run of the notebook: every code cell, top to bottom *)

(** The variables that outlive the cell binding them, as the run leaves
    them ([ax], [ww], [im], [cb], [ax0] and [ax1] are rebound by every
    cell that uses them). *)
Record Globals :=
  { cube : Cube; path : PVPath; pvdiagram : PrimaryHDU; mx : Array2D;
    skypath : PVPath; pvdiagram2 : PrimaryHDU;
    skypath2 : PVPath; pvdiagram3 : PrimaryHDU; pvdiagram4 : PrimaryHDU;
    fig : FigureRef }.

(** The cells that work on the loaded cube. *)
Definition session (cube : Cube) : NB Globals :=
  run_cell (cell_6 cube);;
  path ← run_cell cell_8;
  run_cell (cell_10 cube path);;
  pvdiagram ← run_cell (cell_13 cube path);
  run_cell (cell_15 pvdiagram);;
  run_cell (cell_17 pvdiagram);;
  mx ← run_cell (cell_19 cube);
  run_cell (cell_20 cube path pvdiagram mx);;
  run_cell cell_23;;
  skypath ← run_cell cell_24;
  run_cell (cell_26 cube skypath);;
  pvdiagram2 ← run_cell (cell_27 cube skypath);
  run_cell (cell_28 cube skypath pvdiagram2 mx);;
  run_cell (cell_30 cube skypath pvdiagram2 mx);;
  skypath2 ← run_cell cell_33;
  pvdiagram3 ← run_cell (cell_34 cube skypath2);
  run_cell (cell_36 cube skypath2 pvdiagram3 mx);;
  '(pvdiagram4, fig) ← run_cell (cell_38 cube skypath2 mx);
  run_cell (cell_40 pvdiagram);;
  run_cell (cell_42 fig);;
  mret {| cube := cube; path := path; pvdiagram := pvdiagram; mx := mx;
          skypath := skypath; pvdiagram2 := pvdiagram2;
          skypath2 := skypath2; pvdiagram3 := pvdiagram3;
          pvdiagram4 := pvdiagram4; fig := fig |}.

Definition notebook : NB Globals :=
  run_cell cell_2;;
  cube ← run_cell cell_4;
  session cube.

(** A run starts a fresh kernel on the persistent state. *)
Definition run (web : gmap string FitsCube) (fs : gmap string File)
  : PyError + Globals * World :=
  notebook (boot web fs).

(** * The text of the notebook

    What the repository defines, and what its calls are written on, are
    questions about its text.  The code cells are given here as Python's
    [ast] module parses them, comments dropped; the static reading below
    follows every name to where it was bound. *)

Module ast.
#[local] Unset Elimination Schemes.

Inductive constant :=
| num (x : Number)
| str (s : string)
| boolean (b : bool).

Inductive operator := Add | Sub | Mult | Div.

Inductive expr :=
| Constant (value : constant)
| Name (id : string)
| Attribute (value : expr) (attr : string)
| Subscript (value : expr) (slice : expr)
| Call (func : expr) (args : list expr) (keywords : list (string * expr))
| BinOp (left : expr) (op : operator) (right : expr)
| List (elts : list expr)
| Tuple (elts : list expr)
| JoinedStr (values : list expr)          (* an f-string *)
| FormattedValue (value : expr)           (* a replacement field in it *)
| Lambda (args : list string) (body : expr).

Inductive stmt :=
| Import (name : list string) (asname : option string)
| ImportFrom (module : list string) (names : list (string * option string))
| Assign (target : expr) (value : expr)
| Expr (value : expr)
| Return (value : expr)
| FunctionDef (name : string) (args : list string) (body : list stmt)
| ClassDef (name : string) (bases : list expr) (body : list stmt).

(** Literals as the source writes them. *)
Definition int (n : Z) : expr := Constant (num (Int n)).
Definition float (mantissa : Z) (places : nat) : expr :=
  Constant (num (Float mantissa places)).
Definition text (s : string) : expr := Constant (str s).
End ast.

Module source.
Import ast.

(** Cell 2, lines 44-53 of the notebook file. *)
Definition cell_2 : list stmt :=
  [ Import ["matplotlib"; "pyplot"] (Some "plt");
    ImportFrom ["astropy"] [("units", Some "u")];
    ImportFrom ["astropy"] [("wcs", None)];
    ImportFrom ["spectral_cube"] [("SpectralCube", None)];
    ImportFrom ["pvextractor"] [("extract_pv_slice", None); ("Path", None)];
    Assign
      (Subscript (Attribute (Name "plt") "rcParams")
         (text "figure.facecolor"))
      (text "w") ].

(** Cell 4, lines 71-72 of the notebook file. *)
Definition cell_4 : list stmt :=
  [ Assign (Name "cube")
      (Call (Attribute (Name "SpectralCube") "read")
         [text "http://www.astropy.org/astropy-data/l1448/l1448_13co.fits"]
         []);
    Expr (Name "cube") ].

(** Cell 6, line 91 of the notebook file. *)
Definition cell_6 : list stmt :=
  [ Expr
      (Call (Attribute (Name "plt") "imshow")
         [Attribute (Subscript (Name "cube") (int 25)) "value"]
         [("origin", text "lower")]) ].

(** Cell 8, line 115 of the notebook file. *)
Definition cell_8 : list stmt :=
  [ Assign (Name "path")
      (Call (Name "Path")
         [ List
             [ Tuple [int 20; int 20];
               Tuple [int 40; int 40];
               Tuple [int 60; int 20] ] ]
         []) ].

(** Cell 10, lines 133-137 of the notebook file. *)
Definition cell_10 : list stmt :=
  [ Assign (Name "ax")
      (Call (Attribute (Name "plt") "subplot") [int 111]
         [ ("projection",
            Attribute (Attribute (Name "cube") "wcs") "celestial") ]);
    Expr
      (Call (Attribute (Name "ax") "imshow")
         [Attribute (Subscript (Name "cube") (int 25)) "value"]
         []);
    Expr
      (Call (Attribute (Name "path") "show_on_axis") [Name "ax"]
         [("spacing", int 1); ("color", text "r")]);
    Expr
      (Call (Attribute (Name "ax") "set_xlabel")
         [ JoinedStr
             [ text "Right Ascension [";
               FormattedValue
                 (Attribute (Attribute (Attribute (Name "cube") "wcs") "wcs")
                    "radesys");
               text "]" ] ]
         []);
    Expr
      (Call (Attribute (Name "ax") "set_ylabel")
         [ JoinedStr
             [ text "Declination [";
               FormattedValue
                 (Attribute (Attribute (Attribute (Name "cube") "wcs") "wcs")
                    "radesys");
               text "]" ] ]
         []) ].

(** Cell 13, lines 163-164 of the notebook file. *)
Definition cell_13 : list stmt :=
  [ Assign (Name "pvdiagram")
      (Call (Name "extract_pv_slice") []
         [("cube", Name "cube"); ("path", Name "path"); ("spacing", int 1)]);
    Expr (Name "pvdiagram") ].

(** Cell 15, lines 182-188 of the notebook file. *)
Definition cell_15 : list stmt :=
  [ Assign (Name "ax")
      (Call (Attribute (Name "plt") "subplot") [int 111]
         [ ("projection",
            Call (Attribute (Name "wcs") "WCS")
              [Attribute (Name "pvdiagram") "header"]
              []) ]);
    Assign (Name "im")
      (Call (Attribute (Name "ax") "imshow")
         [Attribute (Name "pvdiagram") "data"]
         []);
    Assign (Name "cb")
      (Call (Attribute (Name "plt") "colorbar") [] [("mappable", Name "im")]);
    Expr
      (Call (Attribute (Name "cb") "set_label")
         [text "Brightness Temperature [K]"]
         []) ].

(** Cell 17, lines 206-219 of the notebook file. *)
Definition cell_17 : list stmt :=
  [ Assign (Name "ww")
      (Call (Attribute (Name "wcs") "WCS")
         [Attribute (Name "pvdiagram") "header"]
         []);
    Assign (Name "ax")
      (Call (Attribute (Name "plt") "subplot") [int 111]
         [("projection", Name "ww")]);
    Assign (Name "im")
      (Call (Attribute (Name "ax") "imshow")
         [Attribute (Name "pvdiagram") "data"]
         []);
    Assign (Name "cb")
      (Call (Attribute (Name "plt") "colorbar") [] [("mappable", Name "im")]);
    Expr
      (Call (Attribute (Name "cb") "set_label")
         [text "Brightness Temperature [K]"]
         []);
    Assign (Name "ax0") (Subscript (Attribute (Name "ax") "coords") (int 0));
    Expr
      (Call (Attribute (Name "ax0") "set_format_unit")
         [Attribute (Name "u") "arcmin"]
         []);
    Assign (Name "ax1") (Subscript (Attribute (Name "ax") "coords") (int 1));
    Expr
      (Call (Attribute (Name "ax1") "set_format_unit")
         [BinOp (Attribute (Name "u") "km") Div (Attribute (Name "u") "s")]
         []);
    Expr
      (Call (Attribute (Name "ax") "set_ylabel") [text "Velocity [km/s]"] []);
    Expr
      (Call (Attribute (Name "ax") "set_xlabel") [text "Offset [arcmin]"] []) ].

(** Cell 19, line 240 of the notebook file. *)
Definition cell_19 : list stmt :=
  [ Assign (Name "mx")
      (Attribute (Call (Attribute (Name "cube") "max") [] [("axis", int 0)])
         "value") ].

(** Cell 20, lines 250-268 of the notebook file. *)
Definition cell_20 : list stmt :=
  [ Expr
      (Call (Attribute (Name "plt") "figure") []
         [("figsize", Tuple [int 12; int 6])]);
    Assign (Name "ax")
      (Call (Attribute (Name "plt") "subplot") [int 121]
         [ ("projection",
            Attribute (Attribute (Name "cube") "wcs") "celestial") ]);
    Expr (Call (Attribute (Name "ax") "imshow") [Name "mx"] []);
    Expr
      (Call (Attribute (Name "path") "show_on_axis") [Name "ax"]
         [("spacing", int 1); ("color", text "r")]);
    Assign (Name "ww")
      (Call (Attribute (Name "wcs") "WCS")
         [Attribute (Name "pvdiagram") "header"]
         []);
    Expr
      (Call (Attribute (Name "ax") "set_xlabel")
         [ JoinedStr
             [ text "Right Ascension [";
               FormattedValue
                 (Attribute (Attribute (Attribute (Name "cube") "wcs") "wcs")
                    "radesys");
               text "]" ] ]
         []);
    Expr
      (Call (Attribute (Name "ax") "set_ylabel")
         [ JoinedStr
             [ text "Declination [";
               FormattedValue
                 (Attribute (Attribute (Attribute (Name "cube") "wcs") "wcs")
                    "radesys");
               text "]" ] ]
         []);
    Assign (Name "ax")
      (Call (Attribute (Name "plt") "subplot") [int 122]
         [("projection", Name "ww")]);
    Assign (Name "im")
      (Call (Attribute (Name "ax") "imshow")
         [Attribute (Name "pvdiagram") "data"]
         []);
    Assign (Name "ax0") (Subscript (Attribute (Name "ax") "coords") (int 0));
    Expr
      (Call (Attribute (Name "ax0") "set_format_unit")
         [Attribute (Name "u") "arcmin"]
         []);
    Assign (Name "ax1") (Subscript (Attribute (Name "ax") "coords") (int 1));
    Expr
      (Call (Attribute (Name "ax1") "set_format_unit")
         [BinOp (Attribute (Name "u") "km") Div (Attribute (Name "u") "s")]
         []);
    Expr
      (Call (Attribute (Name "ax") "set_ylabel") [text "Velocity [km/s]"] []);
    Expr
      (Call (Attribute (Name "ax") "set_xlabel") [text "Offset [arcmin]"] []) ].

(** Cell 23, line 294 of the notebook file. *)
Definition cell_23 : list stmt :=
  [ ImportFrom ["astropy"; "coordinates"] [("SkyCoord", None)] ].

(** Cell 24, lines 304-306 of the notebook file. *)
Definition cell_24 : list stmt :=
  [ Assign (Name "skypath")
      (Call (Name "Path")
         [ Call (Name "SkyCoord")
             [ BinOp (List [float 34 1; float 343 2; float 342 2]) Mult
                 (Attribute (Name "u") "h");
               BinOp (List [float 305 1; float 3075 2; float 305 1]) Mult
                 (Attribute (Name "u") "deg") ]
             [("frame", text "fk5")] ]
         []) ].

(** Cell 26, lines 324-328 of the notebook file. *)
Definition cell_26 : list stmt :=
  [ Assign (Name "ax")
      (Call (Attribute (Name "plt") "subplot") [int 111]
         [ ("projection",
            Attribute (Attribute (Name "cube") "wcs") "celestial") ]);
    Expr
      (Call (Attribute (Name "ax") "imshow")
         [Attribute (Subscript (Name "cube") (int 25)) "value"]
         []);
    Expr
      (Call (Attribute (Name "skypath") "show_on_axis") [Name "ax"]
         [("spacing", int 1); ("color", text "r")]);
    Expr
      (Call (Attribute (Name "ax") "set_xlabel")
         [ JoinedStr
             [ text "Right Ascension [";
               FormattedValue
                 (Attribute (Attribute (Attribute (Name "cube") "wcs") "wcs")
                    "radesys");
               text "]" ] ]
         []);
    Expr
      (Call (Attribute (Name "ax") "set_ylabel")
         [ JoinedStr
             [ text "Declination [";
               FormattedValue
                 (Attribute (Attribute (Attribute (Name "cube") "wcs") "wcs")
                    "radesys");
               text "]" ] ]
         []) ].

(** Cell 27, lines 338-339 of the notebook file. *)
Definition cell_27 : list stmt :=
  [ Assign (Name "pvdiagram2")
      (Call (Name "extract_pv_slice") []
         [("cube", Name "cube"); ("path", Name "skypath")]);
    Expr (Name "pvdiagram2") ].

(** Cell 28, lines 349-367 of the notebook file. *)
Definition cell_28 : list stmt :=
  [ Expr
      (Call (Attribute (Name "plt") "figure") []
         [("figsize", Tuple [int 12; int 6])]);
    Assign (Name "ax")
      (Call (Attribute (Name "plt") "subplot") [int 121]
         [ ("projection",
            Attribute (Attribute (Name "cube") "wcs") "celestial") ]);
    Expr (Call (Attribute (Name "ax") "imshow") [Name "mx"] []);
    Expr
      (Call (Attribute (Name "skypath") "show_on_axis") [Name "ax"]
         [("spacing", int 1); ("color", text "r")]);
    Assign (Name "ww")
      (Call (Attribute (Name "wcs") "WCS")
         [Attribute (Name "pvdiagram2") "header"]
         []);
    Expr
      (Call (Attribute (Name "ax") "set_xlabel")
         [ JoinedStr
             [ text "Right Ascension [";
               FormattedValue
                 (Attribute (Attribute (Attribute (Name "cube") "wcs") "wcs")
                    "radesys");
               text "]" ] ]
         []);
    Expr
      (Call (Attribute (Name "ax") "set_ylabel")
         [ JoinedStr
             [ text "Declination [";
               FormattedValue
                 (Attribute (Attribute (Attribute (Name "cube") "wcs") "wcs")
                    "radesys");
               text "]" ] ]
         []);
    Assign (Name "ax")
      (Call (Attribute (Name "plt") "subplot") [int 122]
         [("projection", Name "ww")]);
    Assign (Name "im")
      (Call (Attribute (Name "ax") "imshow")
         [Attribute (Name "pvdiagram2") "data"]
         []);
    Assign (Name "ax0") (Subscript (Attribute (Name "ax") "coords") (int 0));
    Expr
      (Call (Attribute (Name "ax0") "set_format_unit")
         [Attribute (Name "u") "arcmin"]
         []);
    Assign (Name "ax1") (Subscript (Attribute (Name "ax") "coords") (int 1));
    Expr
      (Call (Attribute (Name "ax1") "set_format_unit")
         [BinOp (Attribute (Name "u") "km") Div (Attribute (Name "u") "s")]
         []);
    Expr
      (Call (Attribute (Name "ax") "set_ylabel") [text "Velocity [km/s]"] []);
    Expr
      (Call (Attribute (Name "ax") "set_xlabel") [text "Offset [arcmin]"] []) ].

(** Cell 30, lines 385-405 of the notebook file. *)
Definition cell_30 : list stmt :=
  [ Expr
      (Call (Attribute (Name "plt") "figure") []
         [("figsize", Tuple [int 12; int 6])]);
    Assign (Name "ax")
      (Call (Attribute (Name "plt") "subplot") [int 121]
         [ ("projection",
            Attribute (Attribute (Name "cube") "wcs") "celestial") ]);
    Expr (Call (Attribute (Name "ax") "imshow") [Name "mx"] []);
    Expr
      (Call (Attribute (Name "skypath") "show_on_axis") [Name "ax"]
         [("spacing", int 1); ("color", text "r")]);
    Assign (Name "ww")
      (Call (Attribute (Name "wcs") "WCS")
         [Attribute (Name "pvdiagram2") "header"]
         []);
    Expr
      (Call (Attribute (Name "ax") "set_xlabel")
         [ JoinedStr
             [ text "Right Ascension [";
               FormattedValue
                 (Attribute (Attribute (Attribute (Name "cube") "wcs") "wcs")
                    "radesys");
               text "]" ] ]
         []);
    Expr
      (Call (Attribute (Name "ax") "set_ylabel")
         [ JoinedStr
             [ text "Declination [";
               FormattedValue
                 (Attribute (Attribute (Attribute (Name "cube") "wcs") "wcs")
                    "radesys");
               text "]" ] ]
         []);
    Assign (Name "ax")
      (Call (Attribute (Name "plt") "subplot") [int 122]
         [("projection", Name "ww")]);
    Assign (Name "im")
      (Call (Attribute (Name "ax") "imshow")
         [Attribute (Name "pvdiagram2") "data"]
         []);
    Expr (Call (Attribute (Name "ax") "set_aspect") [int 2] []);
    Assign (Name "ax0") (Subscript (Attribute (Name "ax") "coords") (int 0));
    Expr
      (Call (Attribute (Name "ax0") "set_format_unit")
         [Attribute (Name "u") "arcmin"]
         []);
    Assign (Name "ax1") (Subscript (Attribute (Name "ax") "coords") (int 1));
    Expr
      (Call (Attribute (Name "ax1") "set_format_unit")
         [BinOp (Attribute (Name "u") "km") Div (Attribute (Name "u") "s")]
         []);
    Expr
      (Call (Attribute (Name "ax") "set_ylabel") [text "Velocity [km/s]"] []);
    Expr
      (Call (Attribute (Name "ax") "set_xlabel") [text "Offset [arcmin]"] []) ].

(** Cell 33, lines 433-436 of the notebook file. *)
Definition cell_33 : list stmt :=
  [ Assign (Name "skypath2")
      (Call (Name "Path")
         [ Call (Name "SkyCoord")
             [ BinOp (List [float 34 1; float 3429 3; float 342 2]) Mult
                 (Attribute (Name "u") "h");
               BinOp (List [float 305 1; float 3075 2; float 305 1]) Mult
                 (Attribute (Name "u") "deg") ]
             [("frame", text "fk5")] ]
         [("width", BinOp (int 2) Mult (Attribute (Name "u") "arcmin"))]) ].

(** Cell 34, line 446 of the notebook file. *)
Definition cell_34 : list stmt :=
  [ Assign (Name "pvdiagram3")
      (Call (Name "extract_pv_slice") []
         [("cube", Name "cube"); ("path", Name "skypath2")]) ].

(** Cell 36, lines 464-488 of the notebook file. *)
Definition cell_36 : list stmt :=
  [ Expr
      (Call (Attribute (Name "plt") "figure") []
         [("figsize", Tuple [int 12; int 6])]);
    Assign (Name "ax")
      (Call (Attribute (Name "plt") "subplot") [int 121]
         [ ("projection",
            Attribute (Attribute (Name "cube") "wcs") "celestial") ]);
    Expr (Call (Attribute (Name "ax") "imshow") [Name "mx"] []);
    Expr
      (Call (Attribute (Name "skypath2") "show_on_axis") [Name "ax"]
         [ ("spacing", int 1);
           ("edgecolor", text "r");
           ("linestyle", text ":");
           ("linewidth", float 75 2) ]);
    Assign (Name "ww")
      (Call (Attribute (Name "wcs") "WCS")
         [Attribute (Name "pvdiagram3") "header"]
         []);
    Expr
      (Call (Attribute (Name "ax") "set_xlabel")
         [ JoinedStr
             [ text "Right Ascension [";
               FormattedValue
                 (Attribute (Attribute (Attribute (Name "cube") "wcs") "wcs")
                    "radesys");
               text "]" ] ]
         []);
    Expr
      (Call (Attribute (Name "ax") "set_ylabel")
         [ JoinedStr
             [ text "Declination [";
               FormattedValue
                 (Attribute (Attribute (Attribute (Name "cube") "wcs") "wcs")
                    "radesys");
               text "]" ] ]
         []);
    Assign (Name "ax")
      (Call (Attribute (Name "plt") "subplot") [int 122]
         [("projection", Name "ww")]);
    Assign (Name "im")
      (Call (Attribute (Name "ax") "imshow")
         [Attribute (Name "pvdiagram3") "data"]
         []);
    Expr (Call (Attribute (Name "ax") "set_aspect") [float 25 1] []);
    Assign (Name "cb")
      (Call (Attribute (Name "plt") "colorbar") [] [("mappable", Name "im")]);
    Expr
      (Call (Attribute (Name "cb") "set_label")
         [text "Brightness Temperature [K]"]
         []);
    Assign (Name "ax0") (Subscript (Attribute (Name "ax") "coords") (int 0));
    Expr
      (Call (Attribute (Name "ax0") "set_format_unit")
         [Attribute (Name "u") "arcmin"]
         []);
    Assign (Name "ax1") (Subscript (Attribute (Name "ax") "coords") (int 1));
    Expr
      (Call (Attribute (Name "ax1") "set_format_unit")
         [BinOp (Attribute (Name "u") "km") Div (Attribute (Name "u") "s")]
         []);
    Expr
      (Call (Attribute (Name "ax") "set_ylabel") [text "Velocity [km/s]"] []);
    Expr
      (Call (Attribute (Name "ax") "set_xlabel") [text "Offset [arcmin]"] []) ].

(** Cell 38, lines 508-531 of the notebook file. *)
Definition cell_38 : list stmt :=
  [ Assign (Name "pvdiagram4")
      (Call (Name "extract_pv_slice") []
         [ ("cube", Name "cube");
           ("path", Name "skypath2");
           ("spacing", int 5) ]);
    Assign (Name "fig")
      (Call (Attribute (Name "plt") "figure") []
         [("figsize", Tuple [int 12; int 6])]);
    Assign (Name "ax")
      (Call (Attribute (Name "plt") "subplot") [int 121]
         [ ("projection",
            Attribute (Attribute (Name "cube") "wcs") "celestial") ]);
    Expr (Call (Attribute (Name "ax") "imshow") [Name "mx"] []);
    Expr
      (Call (Attribute (Name "skypath2") "show_on_axis") [Name "ax"]
         [ ("spacing", int 5);
           ("edgecolor", text "w");
           ("linestyle", text ":");
           ("linewidth", float 75 2) ]);
    Assign (Name "ww")
      (Call (Attribute (Name "wcs") "WCS")
         [Attribute (Name "pvdiagram4") "header"]
         []);
    Expr
      (Call (Attribute (Name "ax") "set_xlabel")
         [ JoinedStr
             [ text "Right Ascension [";
               FormattedValue
                 (Attribute (Attribute (Attribute (Name "cube") "wcs") "wcs")
                    "radesys");
               text "]" ] ]
         []);
    Expr
      (Call (Attribute (Name "ax") "set_ylabel")
         [ JoinedStr
             [ text "Declination [";
               FormattedValue
                 (Attribute (Attribute (Attribute (Name "cube") "wcs") "wcs")
                    "radesys");
               text "]" ] ]
         []);
    Assign (Name "ax")
      (Call (Attribute (Name "plt") "subplot") [int 122]
         [("projection", Name "ww")]);
    Assign (Name "im")
      (Call (Attribute (Name "ax") "imshow")
         [Attribute (Name "pvdiagram4") "data"]
         []);
    Assign (Name "cb")
      (Call (Attribute (Name "plt") "colorbar") [] [("mappable", Name "im")]);
    Expr
      (Call (Attribute (Name "cb") "set_label")
         [text "Brightness Temperature [K]"]
         []);
    Expr (Call (Attribute (Name "ax") "set_aspect") [float 5 1] []);
    Assign (Name "ax0") (Subscript (Attribute (Name "ax") "coords") (int 0));
    Expr
      (Call (Attribute (Name "ax0") "set_format_unit")
         [Attribute (Name "u") "arcmin"]
         []);
    Assign (Name "ax1") (Subscript (Attribute (Name "ax") "coords") (int 1));
    Expr
      (Call (Attribute (Name "ax1") "set_format_unit")
         [BinOp (Attribute (Name "u") "km") Div (Attribute (Name "u") "s")]
         []);
    Expr
      (Call (Attribute (Name "ax") "set_ylabel") [text "Velocity [km/s]"] []);
    Expr
      (Call (Attribute (Name "ax") "set_xlabel") [text "Offset [arcmin]"] []) ].

(** Cell 40, line 551 of the notebook file. *)
Definition cell_40 : list stmt :=
  [ Expr
      (Call (Attribute (Name "pvdiagram") "writeto")
         [text "saved_pvdiagram.fits"]
         [("overwrite", Constant (boolean true))]) ].

(** Cell 42, lines 569-570 of the notebook file. *)
Definition cell_42 : list stmt :=
  [ Expr
      (Call (Attribute (Name "fig") "savefig") [text "saved_pvdiagram.png"]
         [("bbox_inches", text "tight")]);
    Expr
      (Call (Attribute (Name "fig") "savefig") [text "saved_pvdiagram.pdf"]
         [("bbox_inches", text "tight")]) ].

(** The code cells from top to bottom. *)
Definition notebook : list (list stmt) :=
  [ cell_2; cell_4; cell_6; cell_8; cell_10; cell_13; cell_15; cell_17;
    cell_19; cell_20; cell_23; cell_24; cell_26; cell_27; cell_28;
    cell_30; cell_33; cell_34; cell_36; cell_38; cell_40; cell_42 ].
End source.

(** ** Where a value comes from

    The cells are straight-line code, so following a name to the
    statement that bound it is exact. *)
Inductive Origin :=
| Literal                     (* a constant or a display of the language *)
| Imported (i : Import)       (* what an import bound, or an attribute of it *)
| Obtained (pkg : string)     (* an object got through a call into [pkg] *)
| Own                         (* a function or class the notebook defines *)
| Unbound.                    (* a name nothing bound *)

#[global] Instance Import_eq_dec : EqDecision Import.
Proof. solve_decision. Defined.

#[global] Instance Origin_eq_dec : EqDecision Origin.
Proof. solve_decision. Defined.

(** The package behind an origin: the first component of the module
    imported from. *)
Definition package_of (o : Origin) : option string :=
  match o with
  | Imported i => head (imp_module i)
  | Obtained pkg => Some pkg
  | Literal | Own | Unbound => None
  end.

(** What calling, or applying an operator of, a value of origin [o]
    returns. *)
Definition result_of (o : Origin) : Origin :=
  match o with
  | Imported i => from_option Obtained Unbound (head (imp_module i))
  | _ => o
  end.

Definition from_a_package (o : Origin) : bool := bool_decide (is_Some (package_of o)).

Definition Scope : Type := gmap string Origin.

Fixpoint origin (sc : Scope) (e : ast.expr) : Origin :=
  match e with
  | ast.Constant _ | ast.List _ | ast.Tuple _
  | ast.JoinedStr _ | ast.FormattedValue _ => Literal
  | ast.Name id => default Unbound (sc !! id)
  | ast.Attribute v _ => origin sc v
  | ast.Subscript v _ => result_of (origin sc v)
  | ast.Call f _ _ => result_of (origin sc f)
  | ast.BinOp l _ r =>
      (* the operator is the left operand's when that comes from a
         package, the right operand's reflected one otherwise *)
      if from_a_package (origin sc l) then result_of (origin sc l)
      else match origin sc l, origin sc r with
           | Literal, Literal => Literal
           | Own, _ | _, Own => Own
           | Unbound, _ | _, Unbound => Unbound
           | _, o => result_of o
           end
  | ast.Lambda _ _ => Own
  end.

(** ** The calls a cell is written to make *)

(** A callee as written: a dotted name rooted at an import, or a method
    of whatever object the receiver is. *)
Inductive Written :=
| ByName (name : string) (attrs : list string)
| ByMethod (name : string)
| ByValue.                    (* the callee is itself computed *)

#[global] Instance Written_eq_dec : EqDecision Written.
Proof. solve_decision. Defined.

(** One step of computation in the text: a call, a subscript or an
    operator, with the origin of the object that carries it out. *)
Record Step := { st_callee : Written; st_origin : Origin }.

(** [e] as a name followed by attributes. *)
Fixpoint dotted (e : ast.expr) : option (string * list string) :=
  match e with
  | ast.Name id => Some (id, [])
  | ast.Attribute v a => (λ p : string * list string, (p.1, p.2 ++ [a])%list) <$> dotted v
  | _ => None
  end.

Definition callee (sc : Scope) (f : ast.expr) : Written :=
  match f with
  | ast.Name id => ByName id []
  | ast.Attribute v a =>
      match dotted v, origin sc v with
      | Some (root, attrs), Imported _ => ByName root (attrs ++ [a])
      | _, _ => ByMethod a
      end
  | _ => ByValue
  end.

Definition dunder (op : ast.operator) (reflected : bool) : string :=
  match op, reflected with
  | ast.Add, false => "__add__" | ast.Add, true => "__radd__"
  | ast.Sub, false => "__sub__" | ast.Sub, true => "__rsub__"
  | ast.Mult, false => "__mul__" | ast.Mult, true => "__rmul__"
  | ast.Div, false => "__truediv__" | ast.Div, true => "__rtruediv__"
  end.

(** The steps evaluating [e] makes, in the order Python makes them: the
    callee, then the arguments, then the call. *)
Fixpoint steps (sc : Scope) (e : ast.expr) : list Step :=
  match e with
  | ast.Constant _ | ast.Name _ => []
  | ast.Attribute v _ => steps sc v
  | ast.Subscript v i =>
      steps sc v ++ steps sc i
        ++ [{| st_callee := ByMethod "__getitem__"; st_origin := origin sc v |}]
  | ast.Call f args kws =>
      steps sc f ++ (args ≫= steps sc) ++ (kws ≫= λ kw, steps sc kw.2)
        ++ [{| st_callee := callee sc f; st_origin := origin sc f |}]
  | ast.BinOp l op r =>
      steps sc l ++ steps sc r
        ++ [if from_a_package (origin sc l)
            then {| st_callee := ByMethod (dunder op false); st_origin := origin sc l |}
            else {| st_callee := ByMethod (dunder op true); st_origin := origin sc r |}]
  | ast.List es | ast.Tuple es | ast.JoinedStr es => es ≫= steps sc
  | ast.FormattedValue v => steps sc v
  | ast.Lambda _ _ => []
  end%list.

(** What a statement adds to the trace of a reading: the imports it makes
    and the steps it takes. *)
Inductive Move :=
| Imports (i : Import)
| Takes (s : Step).

Definition import_of (module : list string) (asname : option string) : Import :=
  {| imp_module := module; imp_symbol := None;
     imp_as := default (default EmptyString (head module)) asname |}.

Definition import_from (module : list string) (n : string * option string) : Import :=
  {| imp_module := module; imp_symbol := Some n.1; imp_as := default n.1 n.2 |}.

Definition bind_import (sc : Scope) (i : Import) : Scope :=
  <[imp_as i := Imported i]> sc.

(** Reading one statement: the scope after it and what it adds. *)
Definition read_stmt (sc : Scope) (s : ast.stmt) : Scope * list Move :=
  match s with
  | ast.Import name asname =>
      let i := import_of name asname in (bind_import sc i, [Imports i])
  | ast.ImportFrom module names =>
      let l := import_from module <$> names in
      (foldl bind_import sc l, Imports <$> l)
  | ast.Assign (ast.Name x) v =>
      (<[x := origin sc v]> sc, Takes <$> steps sc v)
  | ast.Assign (ast.Subscript c i) v =>
      (sc, Takes <$> (steps sc v ++ steps sc c ++ steps sc i
                        ++ [{| st_callee := ByMethod "__setitem__";
                               st_origin := origin sc c |}]))
  | ast.Assign (ast.Attribute c _) v =>
      (sc, Takes <$> (steps sc v ++ steps sc c
                        ++ [{| st_callee := ByMethod "__setattr__";
                               st_origin := origin sc c |}]))
  | ast.Assign _ v =>
      (sc, Takes <$> (steps sc v ++ [{| st_callee := ByValue; st_origin := Unbound |}]))
  | ast.Expr v | ast.Return v => (sc, Takes <$> steps sc v)
  | ast.FunctionDef name _ _ | ast.ClassDef name _ _ => (<[name := Own]> sc, [])
  end%list.

Definition read_from (sc : Scope) (l : list ast.stmt) : Scope * list Move :=
  foldl (λ st s, let r := read_stmt st.1 s in (r.1, st.2 ++ r.2)%list) (sc, []) l.

(** The notebook read from a fresh kernel, every cell in turn. *)
Definition reading (cells : list (list ast.stmt)) : Scope * list Move :=
  read_from ∅ (concat cells).

(** ** What the text defines *)

Fixpoint has_lambda (e : ast.expr) : bool :=
  match e with
  | ast.Lambda _ _ => true
  | ast.Constant _ | ast.Name _ => false
  | ast.Attribute v _ | ast.FormattedValue v => has_lambda v
  | ast.Subscript v i => has_lambda v || has_lambda i
  | ast.BinOp l _ r => has_lambda l || has_lambda r
  | ast.Call f args kws =>
      has_lambda f || existsb has_lambda args
      || existsb (λ kw, has_lambda kw.2) kws
  | ast.List es | ast.Tuple es | ast.JoinedStr es => existsb has_lambda es
  end.

(** A statement that defines a function or a class. *)
Definition defines (s : ast.stmt) : bool :=
  match s with
  | ast.FunctionDef _ _ _ | ast.ClassDef _ _ _ => true
  | ast.Assign t v => has_lambda t || has_lambda v
  | ast.Expr v | ast.Return v => has_lambda v
  | ast.Import _ _ | ast.ImportFrom _ _ => false
  end.

(** * Specification *)

(** ** Reading the log *)

Definition effects (l : list Event) : list Effect :=
  omap (λ ev, match ev with EvCall _ e => Some e | EvImport _ => None end) l.

(** The cubes read, the paths built and the slices extracted, in order. *)
Definition cubes_read (l : list Event) : list Cube :=
  omap (λ e, match e with ReadCube c => Some c | _ => None end) (effects l).

Definition paths_built (l : list Event) : list PVPath :=
  omap (λ e, match e with BuildPath p => Some p | _ => None end) (effects l).

Definition extractions (l : list Event) : list PrimaryHDU :=
  omap (λ e, match e with ExtractSlice h => Some h | _ => None end) (effects l).

(** The diagrams whose data an [imshow] displayed, one per call. *)
Definition diagrams_shown (l : list Event) : list PrimaryHDU :=
  omap (λ e, match e with RenderPixels _ (data h) => Some h | _ => None end)
       (effects l).

(** The files written: by which call, under which name, with what. *)
Definition writes (l : list Event) : list (Callee * string * File) :=
  omap (λ ev, match ev with
              | EvCall f (WriteFile name c) => Some (f, name, c)
              | _ => None
              end) l.

(** Effect [e] is what the [i]-th event of the log did. *)
Definition effect_at (l : list Event) (i : nat) (e : Effect) : Prop :=
  ∃ f, l !! i = Some (EvCall f e).

(** ** Checking a log event by event *)

(** [history_ok ok seen l]: every event of [l] passes [ok] against the
    events before it ([seen], then the earlier events of [l]). *)
Fixpoint history_ok (ok : list Event → Event → bool) (seen l : list Event) : bool :=
  match l with
  | [] => true
  | ev :: l' => ok seen ev && history_ok ok (seen ++ [ev])%list l'
  end.

(** Some earlier call had an effect satisfying [p]. *)
Definition occurred (p : Effect → bool) (seen : list Event) : bool :=
  existsb (λ ev, match ev with EvCall _ e => p e | EvImport _ => false end) seen.

Definition is_read (e : Effect) : bool :=
  match e with ReadCube _ => true | _ => false end.

Definition is_build (p : PVPath) (e : Effect) : bool :=
  match e with BuildPath p' => bool_decide (p' = p) | _ => false end.

Definition is_extract (h : PrimaryHDU) (e : Effect) : bool :=
  match e with ExtractSlice h' => bool_decide (h' = h) | _ => false end.

(** The order of the chain read, build, extract, render or save. *)
Definition in_order (seen : list Event) (ev : Event) : bool :=
  match ev with
  | EvCall _ (BuildPath _) => occurred is_read seen
  | EvCall _ (ExtractSlice h) =>
      occurred is_read seen && occurred (is_build (pv_path h)) seen
  | EvCall _ (RenderPixels _ (data h)) => occurred (is_extract h) seen
  | EvCall _ (WriteFile _ (Fits h)) => occurred (is_extract h) seen
  | _ => true
  end.

(** How a slice may come about: a call of the imported
    [extract_pv_slice] on cube [c] and a path built before. *)
Definition extracted_from (c : Cube) (seen : list Event) (ev : Event) : bool :=
  match ev with
  | EvCall f (ExtractSlice h) =>
      bool_decide (f = Global "extract_pv_slice" [])
      && bool_decide (pv_cube h = c)
      && occurred (is_build (pv_path h)) seen
  | _ => true
  end.

(** ** Where the code comes from *)

(** The distributions the notebook imports from; the repository holds
    none of them. *)
Definition external_packages : list string :=
  ["matplotlib"; "astropy"; "spectral_cube"; "pvextractor"].

Definition from_library (i : Import) : bool :=
  match imp_module i with
  | pkg :: _ => bool_decide (pkg ∈ external_packages)
  | [] => false
  end.

Definition imported (name : string) (seen : list Event) : bool :=
  existsb (λ ev, match ev with
                 | EvImport i => bool_decide (imp_as i = name) && from_library i
                 | EvCall _ _ => false
                 end) seen.

(** A call goes through a name imported before from one of the
    libraries, or to a method of one of their classes. *)
Definition resolved (seen : list Event) (ev : Event) : bool :=
  match ev with
  | EvImport i => from_library i
  | EvCall (Global name _) _ => imported name seen
  | EvCall (Method cls _) _ => bool_decide (class_package cls ∈ external_packages)
  end.

Definition library_import (i : Import) : Prop :=
  ∃ pkg rest, imp_module i = pkg :: rest ∧ pkg ∈ external_packages.

(** ** The text against the run *)

(** A callee of the log as the text writes it, the class of the receiver
    left out. *)
Definition as_written (f : Callee) : Written :=
  match f with
  | Global name attrs => ByName name attrs
  | Method _ name => ByMethod name
  end.

(** Imports and calls, as the text has them and as a run logs them. *)
Inductive Seen :=
| SeenImport (i : Import)
| SeenCall (f : Written).

#[global] Instance Seen_eq_dec : EqDecision Seen.
Proof. solve_decision. Defined.

Definition in_the_text (m : Move) : Seen :=
  match m with
  | Imports i => SeenImport i
  | Takes s => SeenCall (st_callee s)
  end.

Definition in_the_log (ev : Event) : Seen :=
  match ev with
  | EvImport i => SeenImport i
  | EvCall f _ => SeenCall (as_written f)
  end.

(** No cell defines a function or a class, by [def], [class] or
    [lambda]. *)
Definition defines_nothing (cells : list (list ast.stmt)) : Prop :=
  ∀ cell s, cell ∈ cells → s ∈ cell → defines s = false.

(** The step is carried out by a symbol imported from one of the
    libraries or by an object obtained from one. *)
Definition library_step (s : Step) : Prop :=
  ∃ pkg, package_of (st_origin s) = Some pkg ∧ pkg ∈ external_packages.

Definition library_move (m : Move) : Prop :=
  match m with
  | Imports i => library_import i
  | Takes s => library_step s
  end.

Definition every_step_in_a_library (cells : list (list ast.stmt)) : Prop :=
  ∀ m, m ∈ (reading cells).2 → library_move m.

(** The imports and calls written in the text are those the run makes,
    one for one and in the same order. *)
Definition text_is_the_run (cells : list (list ast.stmt)) (w : World) : Prop :=
  in_the_text <$> (reading cells).2 = in_the_log <$> log w.

(** ** Reading the figures *)

(** The diagrams a figure shows and the path overlays drawn in it. *)
Definition shown_in (fig : Figure) : list PrimaryHDU :=
  omap (λ im, match im_data im with data h => Some h | value _ => None end)
       (fig_axes fig ≫= ax_images).

Definition overlays_in (fig : Figure) : list PathPatches :=
  fig_axes fig ≫= ax_patches.

(** A diagram extracted at an explicit spacing goes with overlays of
    that spacing only. *)
Definition spacing_matches (fig : Figure) : bool :=
  forallb (λ h, match pv_spacing h with
                | Some s => forallb (λ pp, bool_decide (pp_spacing pp = s))
                                    (overlays_in fig)
                | None => true
                end) (shown_in fig).

(** The overlay spacings met by each diagram of explicit spacing. *)
Definition explicit_pairings (figs : list Figure) : list (Number * PrimaryHDU) :=
  fig ← figs;
  h ← shown_in fig;
  match pv_spacing h with
  | Some _ => (λ pp, (pp_spacing pp, h)) <$> overlays_in fig
  | None => []
  end.

(** The projection the axes [ax] was made with. *)
Definition projection_of (figs : list Figure) (ax : AxesRef) : option (option WCSV) :=
  fig ← figs !! ax.1;
  a ← fig_axes fig !! ax.2;
  Some (ax_projection a).

Definition on_own_wcs (figs : list Figure) (ev : Event) : bool :=
  match ev with
  | EvCall _ (RenderPixels ax (data h)) =>
      bool_decide (projection_of figs ax = Some (Some (WCS_of (header h))))
  | _ => true
  end.

(** ** Axis labels *)

Definition sky_labels (r : string) : option string * option string :=
  (Some ("Right Ascension [" +:+ r +:+ "]"), Some ("Declination [" +:+ r +:+ "]")).

Definition pv_labels : option string * option string :=
  (Some "Offset [arcmin]", Some "Velocity [km/s]").

(** No panel with an image is left with an axis that shows no label. *)
Definition every_panel_labelled (outs : list Figure) : Prop :=
  ∀ fig a, fig ∈ outs → a ∈ fig_axes fig → ax_images a ≠ [] →
    is_Some (labels_drawn a).1 ∧ is_Some (labels_drawn a).2.

Definition texts (l : option string * option string)
  : option AxisLabel * option AxisLabel :=
  (Text <$> l.1, Text <$> l.2).

Definition defaults_of (w : WCSV) : option AxisLabel * option AxisLabel :=
  (Some (DefaultOf w 0), Some (DefaultOf w 1)).

(** The labels drawn on panel [a] of the [k]-th figure shown: none in
    the first figure (cell 6); in the third (cell 15), where no label is
    set, the defaults of the WCS of [pvdiagram]'s header; elsewhere the
    texts set for the kind of panel. *)
Definition labels_expected (r : string) (h : PrimaryHDU) (k : nat) (a : Axes)
  : option AxisLabel * option AxisLabel :=
  match k with
  | 0%nat => (None, None)
  | 2%nat => defaults_of (WCS_of (header h))
  | _ => texts match ax_projection a with
               | Some (WCS_of _) => pv_labels
               | _ => sky_labels r
               end
  end.

Definition labelled_but_first (r : string) (g : Globals) (outs : list Figure)
  : Prop :=
  length outs = 10%nat ∧
  ∀ k fig a, outs !! k = Some fig → a ∈ fig_axes fig →
    ax_images a ≠ [] ∧ labels_drawn a = labels_expected r (pvdiagram g) k a.

(** ** Files *)

Definition output_files : list string :=
  ["saved_pvdiagram.fits"; "saved_pvdiagram.png"; "saved_pvdiagram.pdf"].

(** What the journal last wrote under [name]. *)
Fixpoint last_written (name : string) (l : list (string * File)) : option File :=
  match l with
  | [] => None
  | (n, f) :: l' =>
      match last_written name l' with
      | Some f' => Some f'
      | None => if decide (n = name) then Some f else None
      end
  end.

(** ** The claims about a run *)

(** C1 *)
Definition diagrams_from_extraction (g : Globals) (w : World) : Prop :=
  cubes_read (log w) = [cube g] ∧
  pvdiagram g
    = {| pv_cube := cube g; pv_path := path g; pv_spacing := Some (Int 1) |} ∧
  pvdiagram2 g
    = {| pv_cube := cube g; pv_path := skypath g; pv_spacing := None |} ∧
  pvdiagram3 g
    = {| pv_cube := cube g; pv_path := skypath2 g; pv_spacing := None |} ∧
  pvdiagram4 g
    = {| pv_cube := cube g; pv_path := skypath2 g; pv_spacing := Some (Int 5) |} ∧
  extractions (log w) = [pvdiagram g; pvdiagram2 g; pvdiagram3 g; pvdiagram4 g] ∧
  ∀ i f h, log w !! i = Some (EvCall f (ExtractSlice h)) →
    f = Global "extract_pv_slice" [] ∧ pv_cube h = cube g ∧
    ∃ j, (j < i)%nat ∧ effect_at (log w) j (BuildPath (pv_path h)).

(** C2 *)
Definition both_kinds_sliced (g : Globals) (w : World) : Prop :=
  path g = {| path_coords := Pixels [(20, 20); (40, 40); (60, 20)];
              path_width := None |} ∧
  skypath g
    = {| path_coords :=
           Sky {| sc_lon := {| q_value := Array [Float 34 1; Float 343 2; Float 342 2];
                               q_unit := u.h |};
                  sc_lat := {| q_value := Array [Float 305 1; Float 3075 2; Float 305 1];
                               q_unit := u.deg |};
                  sc_frame := "fk5" |};
         path_width := None |} ∧
  skypath2 g
    = {| path_coords :=
           Sky {| sc_lon := {| q_value := Array [Float 34 1; Float 3429 3; Float 342 2];
                               q_unit := u.h |};
                  sc_lat := {| q_value := Array [Float 305 1; Float 3075 2; Float 305 1];
                               q_unit := u.deg |};
                  sc_frame := "fk5" |};
         path_width := Some {| q_value := Scalar (Int 2); q_unit := u.arcmin |} |} ∧
  paths_built (log w) = [path g; skypath g; skypath2 g] ∧
  pv_path <$> extractions (log w) = [path g; skypath g; skypath2 g; skypath2 g].

(** C3 *)
Definition chain_respected (l : list Event) : Prop :=
  (∀ i p, effect_at l i (BuildPath p) →
     ∃ j c, (j < i)%nat ∧ effect_at l j (ReadCube c)) ∧
  (∀ i h, effect_at l i (ExtractSlice h) →
     (∃ j c, (j < i)%nat ∧ effect_at l j (ReadCube c)) ∧
     ∃ j, (j < i)%nat ∧ effect_at l j (BuildPath (pv_path h))) ∧
  (∀ i ax h, effect_at l i (RenderPixels ax (data h)) →
     ∃ j, (j < i)%nat ∧ effect_at l j (ExtractSlice h)) ∧
  (∀ i name h, effect_at l i (WriteFile name (Fits h)) →
     ∃ j, (j < i)%nat ∧ effect_at l j (ExtractSlice h)).

(** The calls of a run, on its log. *)
Definition only_library_code (w : World) : Prop :=
  (∀ i f e, log w !! i = Some (EvCall f e) →
     match f with
     | Global name _ =>
         ∃ j imp, (j < i)%nat ∧ log w !! j = Some (EvImport imp) ∧
                  imp_as imp = name ∧ library_import imp
     | Method cls _ => class_package cls ∈ external_packages
     end) ∧
  (∀ name imp, namespace w !! name = Some imp → library_import imp) ∧
  dom (namespace w)
    = list_to_set ["plt"; "u"; "wcs"; "SpectralCube"; "extract_pv_slice";
                   "Path"; "SkyCoord"].

(** C5: nothing is defined in the text, every step written there is a
    library's, the steps written are the calls made, and each call made
    goes through an import made before it. *)
Definition no_code_of_its_own (cells : list (list ast.stmt)) (w : World) : Prop :=
  defines_nothing cells ∧
  every_step_in_a_library cells ∧
  text_is_the_run cells w ∧
  only_library_code w.

(** C6 *)
Definition first_diagram_saved (g : Globals) (w : World) : Prop :=
  head (extractions (log w)) = Some (pvdiagram g) ∧
  path_coords (pv_path (pvdiagram g)) = Pixels [(20, 20); (40, 40); (60, 20)] ∧
  (Method HDU "writeto", "saved_pvdiagram.fits", Fits (pvdiagram g))
    ∈ writes (log w) ∧
  ∃ hdu, files w !! "saved_pvdiagram.fits" = Some (Fits hdu) ∧
         data hdu = data (pvdiagram g) ∧ header hdu = header (pvdiagram g).

(** C7 *)
Definition only_outputs_persist (web : gmap string FitsCube)
    (fs : gmap string File) (fc : FitsCube) (w : World) : Prop :=
  remote w = web ∧
  cubes w = [(cube_address, fc)] ∧
  (written w).*1 = output_files ∧
  (λ x, x.1.2) <$> writes (log w) = output_files ∧
  (∀ name, name ∉ output_files → files w !! name = fs !! name) ∧
  dom (files w) = dom fs ∪ list_to_set output_files.

(** C8 *)
Definition overlay_spacing_matches (g : Globals) (w : World) : Prop :=
  (∀ fig a b pp im h s,
     fig ∈ outputs w → a ∈ fig_axes fig → b ∈ fig_axes fig →
     pp ∈ ax_patches a → im ∈ ax_images b →
     im_data im = data h → pv_spacing h = Some s →
     pp_spacing pp = s) ∧
  explicit_pairings (outputs w) = [(Int 1, pvdiagram g); (Int 5, pvdiagram4 g)].

(** C9 *)
Definition shown_on_own_wcs (g : Globals) (w : World) : Prop :=
  (∀ i ax h, effect_at (log w) i (RenderPixels ax (data h)) →
     projection_of (figures w) ax = Some (Some (WCS_of (header h)))) ∧
  diagrams_shown (log w)
    = [pvdiagram g; pvdiagram g; pvdiagram g; pvdiagram2 g; pvdiagram2 g;
       pvdiagram3 g; pvdiagram4 g].

(** C10 *)
Definition diagram_file_replaced (old : File) (g : Globals) (w : World) : Prop :=
  disk w !! "saved_pvdiagram.fits" = Some old ∧
  files w !! "saved_pvdiagram.fits" = Some (Fits (pvdiagram g)).

(** ** Running the notebook on any persistent state *)

(** The names bound by cell 2. *)
Definition header_imports : list Import :=
  [ {| imp_module := ["matplotlib"; "pyplot"]; imp_symbol := None; imp_as := "plt" |};
    {| imp_module := ["astropy"]; imp_symbol := Some "units"; imp_as := "u" |};
    {| imp_module := ["astropy"]; imp_symbol := Some "wcs"; imp_as := "wcs" |};
    {| imp_module := ["spectral_cube"]; imp_symbol := Some "SpectralCube";
       imp_as := "SpectralCube" |};
    {| imp_module := ["pvextractor"]; imp_symbol := Some "extract_pv_slice";
       imp_as := "extract_pv_slice" |};
    {| imp_module := ["pvextractor"]; imp_symbol := Some "Path"; imp_as := "Path" |} ].

(** The world once cells 2 and 4 have run: the imports are done and the
    cube found at its address is in memory. *)
Definition loaded (web : gmap string FitsCube) (fs : gmap string File)
    (fc : FitsCube) : World :=
  {| remote := web; disk := fs; written := [];
     namespace := list_to_map ((λ i, (imp_as i, i)) <$> header_imports);
     rcParams := {[ "figure.facecolor" := "w" ]};
     cubes := [(cube_address, fc)];
     figures := []; managers := []; outputs := [];
     log := ((EvImport <$> header_imports) ++
             [ EvCall (Method RcParams "__setitem__") Other;
               EvCall (Global "SpectralCube" ["read"]) (ReadCube 0%nat) ])%list |}.

(** What a run lets one observe, [None] when it raised. *)
Definition observe {B} (f : Globals → World → B)
    (r : PyError + Globals * World) : option B :=
  match r with inr (g, w) => Some (f g w) | inl _ => None end.

(** A sample persistent state: the cube is on line, and a file of the
    name the notebook saves under may be there already. *)
Definition sample_cube : FitsCube :=
  {| fc_radesys := "FK5"; fc_bytes := "SIMPLE  =                    T" |}.

Definition sample_web : gmap string FitsCube := {[ cube_address := sample_cube ]}.

Definition stale_files : gmap string File :=
  {[ "saved_pvdiagram.fits" := Raw "stale" ]}.

(** ** Cells run in any order *)

(** The code cells, with whatever values their variables hold. *)
Inductive code_cell : ∀ {A : Type}, NB A → Prop :=
| is_cell_2 : code_cell cell_2
| is_cell_4 : code_cell cell_4
| is_cell_6 cube : code_cell (cell_6 cube)
| is_cell_8 : code_cell cell_8
| is_cell_10 cube path : code_cell (cell_10 cube path)
| is_cell_13 cube path : code_cell (cell_13 cube path)
| is_cell_15 pvdiagram : code_cell (cell_15 pvdiagram)
| is_cell_17 pvdiagram : code_cell (cell_17 pvdiagram)
| is_cell_19 cube : code_cell (cell_19 cube)
| is_cell_20 cube path pvdiagram mx : code_cell (cell_20 cube path pvdiagram mx)
| is_cell_23 : code_cell cell_23
| is_cell_24 : code_cell cell_24
| is_cell_26 cube skypath : code_cell (cell_26 cube skypath)
| is_cell_27 cube skypath : code_cell (cell_27 cube skypath)
| is_cell_28 cube skypath pvdiagram2 mx :
    code_cell (cell_28 cube skypath pvdiagram2 mx)
| is_cell_30 cube skypath pvdiagram2 mx :
    code_cell (cell_30 cube skypath pvdiagram2 mx)
| is_cell_33 : code_cell cell_33
| is_cell_34 cube skypath2 : code_cell (cell_34 cube skypath2)
| is_cell_36 cube skypath2 pvdiagram3 mx :
    code_cell (cell_36 cube skypath2 pvdiagram3 mx)
| is_cell_38 cube skypath2 mx : code_cell (cell_38 cube skypath2 mx)
| is_cell_40 pvdiagram : code_cell (cell_40 pvdiagram)
| is_cell_42 fig : code_cell (cell_42 fig).

(** One cell executed to its end in the notebook. *)
Inductive executes (w w' : World) : Prop :=
| exec_cell {A} (cell : NB A) (a : A) :
    code_cell cell → run_cell cell w = inr (a, w') → executes w w'.

(** [after w w']: what every world reached from [w] keeps of it.  The
    resources on line and the directory as found are the same; files,
    cubes in memory and events are only added, the files under the
    output names; no bound name is unbound. *)
Record after (w w' : World) : Prop :=
  { after_remote : remote w' = remote w;
    after_disk : disk w' = disk w;
    after_written :
      ∃ l, written w' = (written w ++ l)%list ∧
           Forall (λ nf : string * File, nf.1 ∈ output_files) l;
    after_cubes : cubes w `prefix_of` cubes w';
    after_log : log w `prefix_of` log w';
    after_names : dom (namespace w) ⊆ dom (namespace w') }.

(** A computation that, when it completes, leaves a world [after] the
    one it started in. *)
Definition keeps {A} (m : NB A) : Prop :=
  ∀ w a w', m w = inr (a, w') → after w w'.

(** A computation that, when it completes, has got there by executing
    code cells. *)
Definition reaches {A} (m : NB A) : Prop :=
  ∀ w a w', m w = inr (a, w') → rtc executes w w'.

(** ** More about a run *)

(** What of a file is the same from one run to the next: of a picture,
    whose file holds the time it was made, only that it is one. *)
Definition timeless (f : File) : option File :=
  match f with
  | Picture _ _ _ => None
  | Raw _ | Fits _ => Some f
  end.

Definition timeless_write (nf : string * File) : string * option File :=
  (nf.1, timeless nf.2).

(** The same of a logged event: of the writing of a picture, who wrote
    and under which name. *)
Definition timeless_event (ev : Event) : Event + Callee * string :=
  match ev with
  | EvCall f (WriteFile name (Picture _ _ _)) => inr (f, name)
  | _ => inl ev
  end.

(** Everything a run computes that does not hold the time: the
    variables and the whole world but the resources on line and the
    directory as found (maps as their lists of bindings). *)
Definition computed (g : Globals) (w : World) :=
  (g, timeless_write <$> written w, map_to_list (namespace w),
   map_to_list (rcParams w), cubes w, figures w, managers w, outputs w,
   timeless_event <$> log w).

(** Two directories with the same files, pictures compared as such. *)
Definition same_but_for_time (fs fs' : gmap string File) : Prop :=
  ∀ name, timeless <$> fs !! name = timeless <$> fs' !! name.

(** The pictures saved are of the figure [fig], the last one shown; it
    shows [pvdiagram4], which is not the diagram saved as FITS. *)
Definition pictures_of_last_figure (g : Globals) (w : World) : Prop :=
  ∃ f, figures w !! fig g = Some f ∧ last (outputs w) = Some f ∧
       files w !! "saved_pvdiagram.png" = Some (Picture "png" f (Some "tight")) ∧
       files w !! "saved_pvdiagram.pdf" = Some (Picture "pdf" f (Some "tight")) ∧
       shown_in f = [pvdiagram4 g] ∧ pvdiagram4 g ≠ pvdiagram g.

(** Every figure made is shown once, in the order made, and is at the
    end as it was shown; none is left open. *)
Definition figures_shown_once (w : World) : Prop :=
  outputs w = figures w ∧ managers w = [] ∧ length (figures w) = 10%nat.

(** Every colorbar carries the brightness label and belongs to an image
    of a diagram in its own figure. *)
Definition colorbars_labelled (outs : list Figure) : Prop :=
  (∀ k fig cb, outs !! k = Some fig → cb ∈ fig_colorbars fig →
     cb_label cb = Some "Brightness Temperature [K]" ∧
     (cb_mappable cb).1.1 = k ∧
     ∃ a im h, fig_axes fig !! (cb_mappable cb).1.2 = Some a ∧
               ax_images a !! (cb_mappable cb).2 = Some im ∧
               im_data im = data h) ∧
  length (outs ≫= fig_colorbars) = 4%nat.

(** A panel is labelled in arcmin and km/s exactly when its coordinates
    are formatted in these units. *)
Definition units_match_labels (outs : list Figure) : Prop :=
  ∀ fig a, fig ∈ outs → a ∈ fig_axes fig →
    (ax_xlabel a = Some "Offset [arcmin]"
     ↔ ax_format_unit a !! 0%nat = Some u.arcmin) ∧
    (ax_ylabel a = Some "Velocity [km/s]"
     ↔ ax_format_unit a !! 1%nat = Some (u.div u.km u.s)).

(** The overlays of a figure against the diagrams it shows. *)
Definition pairings_ok (P : PathPatches → PrimaryHDU → bool) (fig : Figure) : bool :=
  forallb (λ h, forallb (λ pp, P pp h) (overlays_in fig)) (shown_in fig).

Definition pairings (figs : list Figure) : list (PathPatches * PrimaryHDU) :=
  fig ← figs; h ← shown_in fig; (λ pp, (pp, h)) <$> overlays_in fig.

(** The overlay is of the path the diagram was extracted along, and of
    spacing 1 when the extraction left the spacing out. *)
Definition follows_extraction (pp : PathPatches) (h : PrimaryHDU) : bool :=
  bool_decide (pp_path pp = pv_path h)
  && match pv_spacing h with
     | None => bool_decide (pp_spacing pp = Int 1)
     | Some _ => true
     end.

Definition overlays_follow_extraction (outs : list Figure) : Prop :=
  (∀ fig a b pp im h,
     fig ∈ outs → a ∈ fig_axes fig → b ∈ fig_axes fig →
     pp ∈ ax_patches a → im ∈ ax_images b → im_data im = data h →
     pp_path pp = pv_path h ∧ (pv_spacing h = None → pp_spacing pp = Int 1)) ∧
  length (pairings outs) = 5%nat.

(** The projection a cube image is drawn on: the cube's celestial WCS
    through [ax.imshow], none through [plt.imshow]. *)
Definition sky_projection (c : Cube) (f : Callee) : option WCSV :=
  if decide (f = Global "plt" ["imshow"]) then None
  else Some (celestial (cube_wcs c)).

Definition on_sky_wcs (c : Cube) (figs : list Figure) (ev : Event) : bool :=
  match ev with
  | EvCall f (RenderPixels ax (value p)) =>
      bool_decide (projection_of figs ax = Some (sky_projection c f))
  | _ => true
  end.

(** The cube images an [imshow] displayed, one per call. *)
Definition cube_images_shown (l : list Event) : list LowerDim :=
  omap (λ e, match e with RenderPixels _ (value p) => Some p | _ => None end)
       (effects l).

Definition cube_images_on_sky_wcs (g : Globals) (w : World) : Prop :=
  (∀ i f ax p, log w !! i = Some (EvCall f (RenderPixels ax (value p))) →
     projection_of (figures w) ax = Some (sky_projection (cube g) f)) ∧
  cube_images_shown (log w)
    = [plane (cube g) 25; plane (cube g) 25; maximum (cube g) 0;
       plane (cube g) 25; maximum (cube g) 0; maximum (cube g) 0;
       maximum (cube g) 0; maximum (cube g) 0].

(** Every figure is drawn on the face colour that cell 2 set. *)
Definition facecolor_from_rcParams (w : World) : Prop :=
  rcParams w !! "figure.facecolor" = Some "w" ∧
  ∀ fig, fig ∈ outputs w → fig_facecolor fig = rcParams w !! "figure.facecolor".

(** A figure is one panel at the default size, or two panels side by
    side at 12 by 6: on the left the cube's maximum with one path
    overlay, on the right a diagram and no overlay. *)
Definition one_panel (fig : Figure) : Prop :=
  fig_figsize fig = None ∧ ax_position <$> fig_axes fig = [111].

Definition two_panels (c : Cube) (fig : Figure) : Prop :=
  fig_figsize fig = Some (Int 12, Int 6) ∧
  ∃ l r h, fig_axes fig = [l; r] ∧
           ax_position l = 121 ∧ ax_position r = 122 ∧
           im_data <$> ax_images l = [value (maximum c 0)] ∧
           length (ax_patches l) = 1%nat ∧
           im_data <$> ax_images r = [data h] ∧ ax_patches r = [].

Definition panel_layout (g : Globals) (w : World) : Prop :=
  (∀ fig, fig ∈ outputs w → one_panel fig ∨ two_panels (cube g) fig) ∧
  length <$> (fig_axes <$> outputs w) = [1; 1; 1; 1; 2; 1; 2; 2; 2; 2]%nat.

(** * Verification *)

(** ** The log, event by event *)

Lemma history_ok_lookup ok seen l i ev :
  history_ok ok seen l = true → l !! i = Some ev →
  ok (seen ++ take i l)%list ev = true.
Proof.
  revert seen i. induction l as [|x l IH]; intros seen i Hok Hi.
  - discriminate Hi.
  - simpl in Hok. apply andb_true_iff in Hok as [Hx Hl].
    destruct i as [|i]; simpl in *.
    + injection Hi as ->. by rewrite app_nil_r.
    + rewrite (cons_middle x seen), (assoc_L (++)%list). apply IH; assumption.
Qed.

Lemma history_ok_prefix ok l i ev :
  history_ok ok [] l = true → l !! i = Some ev → ok (take i l) ev = true.
Proof. intros Hok Hi. exact (history_ok_lookup ok [] l i ev Hok Hi). Qed.

Lemma occurred_before p l i :
  occurred p (take i l) = true →
  ∃ j f e, (j < i)%nat ∧ l !! j = Some (EvCall f e) ∧ p e = true.
Proof.
  unfold occurred. intros H.
  apply existsb_exists in H as (ev & Hin & Hp).
  apply list_elem_of_In, elem_of_take in Hin as (j & Hj & Hlt).
  destruct ev as [imp|f e]; [discriminate|].
  exists j, f, e. auto.
Qed.

Lemma read_before l i :
  occurred is_read (take i l) = true →
  ∃ j c, (j < i)%nat ∧ effect_at l j (ReadCube c).
Proof.
  intros H. apply occurred_before in H as (j & f & e & Hlt & Hj & He).
  destruct e; try discriminate. exists j, c. split; [done|]. by exists f.
Qed.

Lemma build_before p l i :
  occurred (is_build p) (take i l) = true →
  ∃ j, (j < i)%nat ∧ effect_at l j (BuildPath p).
Proof.
  intros H. apply occurred_before in H as (j & f & e & Hlt & Hj & He).
  destruct e; try discriminate. apply bool_decide_eq_true in He as ->.
  exists j. split; [done|]. by exists f.
Qed.

Lemma extract_before h l i :
  occurred (is_extract h) (take i l) = true →
  ∃ j, (j < i)%nat ∧ effect_at l j (ExtractSlice h).
Proof.
  intros H. apply occurred_before in H as (j & f & e & Hlt & Hj & He).
  destruct e; try discriminate. apply bool_decide_eq_true in He as ->.
  exists j. split; [done|]. by exists f.
Qed.

Lemma in_order_chain l : history_ok in_order [] l = true → chain_respected l.
Proof.
  intros Hok. split; [|split; [|split]].
  - intros i p [f Hi]. apply (history_ok_prefix _ _ _ _ Hok) in Hi.
    by apply read_before.
  - intros i h [f Hi]. apply (history_ok_prefix _ _ _ _ Hok) in Hi.
    simpl in Hi. apply andb_true_iff in Hi as [Hr Hb].
    split; [by apply read_before | by apply build_before].
  - intros i ax h [f Hi]. apply (history_ok_prefix _ _ _ _ Hok) in Hi.
    by apply extract_before.
  - intros i name h [f Hi]. apply (history_ok_prefix _ _ _ _ Hok) in Hi.
    by apply extract_before.
Qed.

Lemma extracted_from_spec c l i f h :
  history_ok (extracted_from c) [] l = true →
  l !! i = Some (EvCall f (ExtractSlice h)) →
  f = Global "extract_pv_slice" [] ∧ pv_cube h = c ∧
  ∃ j, (j < i)%nat ∧ effect_at l j (BuildPath (pv_path h)).
Proof.
  intros Hok Hi. apply (history_ok_prefix _ _ _ _ Hok) in Hi. simpl in Hi.
  apply andb_true_iff in Hi as [Hi Hb]. apply andb_true_iff in Hi as [Hf Hc].
  apply bool_decide_eq_true in Hf. apply bool_decide_eq_true in Hc.
  auto using build_before.
Qed.

Lemma from_library_import i : from_library i = true → library_import i.
Proof.
  unfold from_library, library_import. destruct (imp_module i) as [|pkg rest].
  - discriminate.
  - intros H. apply bool_decide_eq_true in H. by exists pkg, rest.
Qed.

Lemma imported_before name l i :
  imported name (take i l) = true →
  ∃ j imp, (j < i)%nat ∧ l !! j = Some (EvImport imp) ∧
           imp_as imp = name ∧ library_import imp.
Proof.
  unfold imported. intros H.
  apply existsb_exists in H as (ev & Hin & Hp).
  apply list_elem_of_In, elem_of_take in Hin as (j & Hj & Hlt).
  destruct ev as [imp|f e]; [|discriminate].
  apply andb_true_iff in Hp as [Hn Hl]. apply bool_decide_eq_true in Hn.
  exists j, imp. auto using from_library_import.
Qed.

Lemma resolved_calls l i f e :
  history_ok resolved [] l = true → l !! i = Some (EvCall f e) →
  match f with
  | Global name _ =>
      ∃ j imp, (j < i)%nat ∧ l !! j = Some (EvImport imp) ∧
               imp_as imp = name ∧ library_import imp
  | Method cls _ => class_package cls ∈ external_packages
  end.
Proof.
  intros Hok Hi. apply (history_ok_prefix _ _ _ _ Hok) in Hi.
  destruct f as [name attrs|cls name]; simpl in Hi.
  - by apply imported_before.
  - by apply bool_decide_eq_true in Hi.
Qed.

(** ** The working directory *)

Lemma foldl_write_lookup (l : list (string * File)) (fs : gmap string File) name :
  foldl write_file fs l !! name
  = match last_written name l with
    | Some f => Some f
    | None => fs !! name
    end.
Proof.
  revert fs. induction l as [|[n f] l IH]; intros fs; [done|].
  simpl. rewrite IH. destruct (last_written name l); [done|].
  unfold write_file. simpl. rewrite lookup_insert.
  by destruct (decide (n = name)).
Qed.

Lemma last_written_None name (l : list (string * File)) :
  name ∉ l.*1 → last_written name l = None.
Proof.
  induction l as [|[n f] l IH]; [done|]. simpl.
  intros Hn. apply not_elem_of_cons in Hn as [Hne Hl].
  rewrite (IH Hl). destruct (decide (n = name)); congruence.
Qed.

Lemma files_lookup w name :
  files w !! name
  = match last_written name (written w) with
    | Some f => Some f
    | None => disk w !! name
    end.
Proof. apply foldl_write_lookup. Qed.

Lemma files_frame w name :
  name ∉ (written w).*1 → files w !! name = disk w !! name.
Proof. intros H. by rewrite files_lookup, (last_written_None _ _ H). Qed.

Lemma foldl_write_dom (l : list (string * File)) (fs : gmap string File) :
  dom (foldl write_file fs l) = dom fs ∪ list_to_set l.*1.
Proof.
  revert fs. induction l as [|[n f] l IH]; intros fs.
  - simpl. by rewrite (right_id_L ∅ (∪)).
  - change (foldl write_file fs ((n, f) :: l))
      with (foldl write_file (<[n := f]> fs) l).
    rewrite IH, fmap_cons, list_to_set_cons, dom_insert_L.
    by rewrite (comm_L (∪) {[n]}), (assoc_L (∪)).
Qed.

Lemma files_dom w : dom (files w) = dom (disk w) ∪ list_to_set (written w).*1.
Proof. apply foldl_write_dom. Qed.

Lemma last_written_snoc name (l : list (string * File)) f :
  last_written name (l ++ [(name, f)]) = Some f.
Proof.
  induction l as [|[n f'] l IH]; simpl.
  - by rewrite decide_True.
  - by rewrite IH.
Qed.

(** [writeto] with [overwrite=True] never fails; without it an
    existing file is an error. *)
Lemma writeto_overwrite hdu name w :
  ∃ w', writeto hdu name true w = inr (tt, w') ∧
        files w' !! name = Some (Fits hdu) ∧ disk w' = disk w.
Proof.
  eexists. split; [reflexivity|]. split; [|reflexivity].
  rewrite files_lookup. simpl. by rewrite last_written_snoc.
Qed.

Lemma writeto_exists hdu name w old :
  files w !! name = Some old → writeto hdu name false w = inl (OSError name).
Proof.
  intros H. unfold writeto, mbind, NB_bind, get. cbv beta iota. by rewrite H.
Qed.

(** ** The figures *)

Lemma shown_in_spec fig b im h :
  b ∈ fig_axes fig → im ∈ ax_images b → im_data im = data h → h ∈ shown_in fig.
Proof.
  intros Hb Him Hd. unfold shown_in. apply list_elem_of_omap.
  exists im. split; [|by rewrite Hd].
  apply list_elem_of_bind. by exists b.
Qed.

Lemma spacing_matches_spec fig a b pp im h s :
  spacing_matches fig = true →
  a ∈ fig_axes fig → b ∈ fig_axes fig → pp ∈ ax_patches a → im ∈ ax_images b →
  im_data im = data h → pv_spacing h = Some s → pp_spacing pp = s.
Proof.
  unfold spacing_matches. intros Hok Ha Hb Hpp Him Hd Hs.
  rewrite forallb_forall in Hok.
  assert (Hh : In h (shown_in fig)).
  { apply list_elem_of_In. by apply (shown_in_spec fig b im). }
  specialize (Hok h Hh). rewrite Hs, forallb_forall in Hok.
  eapply bool_decide_eq_true_1, Hok.
  apply list_elem_of_In, list_elem_of_bind. by exists a.
Qed.

Lemma on_own_wcs_spec figs l i ax h :
  forallb (on_own_wcs figs) l = true →
  effect_at l i (RenderPixels ax (data h)) →
  projection_of figs ax = Some (Some (WCS_of (header h))).
Proof.
  intros Hok [f Hi]. rewrite forallb_forall in Hok.
  apply list_elem_of_lookup_2, list_elem_of_In, Hok in Hi.
  by apply bool_decide_eq_true in Hi.
Qed.

(** ** Running the notebook on any persistent state *)

Lemma mbind_unfold {A B} (m : NB A) (k : A → NB B) (w : World) :
  (m ≫= k) w = match m w with inl e => inl e | inr (a, w') => k a w' end.
Proof. reflexivity. Qed.

(** [SpectralCube.read] finds the cube or raises. *)
Lemma read_found url w fc imp :
  namespace w !! "SpectralCube" = Some imp → remote w !! url = Some fc →
  SpectralCube.read url w
  = inr (length (cubes w),
         set_log (λ l, l ++ [EvCall (Global "SpectralCube" ["read"])
                               (ReadCube (length (cubes w)))])%list
           (set_cubes (λ l, l ++ [(url, fc)])%list w)).
Proof.
  intros Hn Hf.
  unfold SpectralCube.read, resolve, fetch, get, mbind, NB_bind, mret, NB_ret.
  cbv beta iota zeta. rewrite Hn. cbv beta iota. by rewrite Hf.
Qed.

Lemma read_missing url w imp :
  namespace w !! "SpectralCube" = Some imp → remote w !! url = None →
  SpectralCube.read url w = inl (URLError url).
Proof.
  intros Hn Hf.
  unfold SpectralCube.read, resolve, fetch, get, mbind, NB_bind, mret, NB_ret.
  cbv beta iota zeta. rewrite Hn. cbv beta iota. by rewrite Hf.
Qed.

(** [after_cell_2 k]: run cell 2 on the fresh kernel and go on with [k]
    on cell 4. *)
Ltac after_cell_2 :=
  rewrite mbind_unfold;
  lazymatch goal with
  | |- context [run_cell cell_2 ?w0] =>
      let r := eval vm_compute in (run_cell cell_2 w0) in
      replace (run_cell cell_2 w0) with r by (vm_compute; reflexivity)
  end;
  cbv beta iota; rewrite mbind_unfold;
  unfold run_cell at 1, cell_4; rewrite !mbind_unfold.

Lemma load_step {B} web fs fc (k : Cube → NB B) :
  web !! cube_address = Some fc →
  (run_cell cell_2;; cube ← run_cell cell_4; k cube) (boot web fs)
  = k 0%nat (loaded web fs fc).
Proof.
  intros H. after_cell_2.
  erewrite read_found; [|vm_compute; reflexivity|exact H].
  vm_compute. reflexivity.
Qed.

Lemma run_unfold web fs :
  run web fs
  = (run_cell cell_2;; cube ← run_cell cell_4; session cube) (boot web fs).
Proof. reflexivity. Qed.

(** With the cube on line, a run is the session on the loaded world. *)
Lemma run_loaded web fs fc :
  web !! cube_address = Some fc →
  run web fs = session 0%nat (loaded web fs fc).
Proof. intros H. rewrite run_unfold. apply load_step, H. Qed.

(** X14: when the cube is not to be found at its address, the run stops
    at the read of cell 4 with the URL error for that address, whatever
    else is on line and in the directory. *)
Lemma run_offline web fs :
  web !! cube_address = None → run web fs = inl (URLError cube_address).
Proof.
  intros H. rewrite run_unfold. after_cell_2.
  erewrite read_missing; [|vm_compute; reflexivity|exact H].
  reflexivity.
Qed.

(** [evaluate O]: replace the left-hand side of the equation [O] by its
    value. *)
Ltac evaluate O :=
  lazymatch type of O with
  | ?l = _ =>
      let v := eval vm_compute in l in
      let Hv := fresh in
      assert (Hv : l = v) by (vm_compute; reflexivity);
      apply (eq_trans (eq_sym Hv)) in O; clear Hv
  end.

(** [run_notebook H E]: with [H : web !! cube_address = Some fc], turn a
    goal [∃ g w, run web fs = inr (g, w) ∧ P g w] into [P g w], keeping
    the run as [E]. *)
Ltac run_notebook H E :=
  let e := fresh "e" in
  let g := fresh "g" in
  let w := fresh "w" in
  let O := fresh "O" in
  lazymatch goal with
  | |- ∃ g' w', run ?web ?fs = _ ∧ _ =>
      destruct (run web fs) as [e|[g w]] eqn:E;
      rewrite (run_loaded _ _ _ H) in E;
      [ exfalso; pose proof (f_equal (observe (λ _ _, tt)) E) as O;
        evaluate O; discriminate O
      | exists g, w; split; [reflexivity|] ]
  end.

(** [observing E f as O]: evaluate the observation [f] of the run [E]. *)
Tactic Notation "observing" hyp(E) uconstr(f) "as" ident(O) :=
  pose proof (f_equal (observe f) E) as O;
  evaluate O; unfold observe in O; apply (inj Some) in O; symmetry in O.

(** ** The claims *)

(** C1: every diagram of a run (pvdiagram, pvdiagram2, pvdiagram3,
    pvdiagram4) is the result of extract_pv_slice applied to the one cube
    read at the start and to a path built earlier in the run, and the run
    extracts no other slice. *)
Theorem diagrams_only_by_extract_pv_slice web fs fc :
  web !! cube_address = Some fc →
  ∃ g w, run web fs = inr (g, w) ∧ diagrams_from_extraction g w.
Proof.
  intros H. run_notebook H E.
  observing E (λ g w, (g, cubes_read (log w), extractions (log w),
                       history_ok (extracted_from (cube g)) [] (log w))) as O.
  injection O as -> Hc He Hh.
  unfold diagrams_from_extraction. rewrite Hc, He.
  repeat (split; [reflexivity|]).
  intros i f h Hi. apply (extracted_from_spec _ _ _ _ _ Hh Hi).
Qed.

Lemma diagrams_only_by_extract_pv_slice_witness :
  ∃ g w, run sample_web ∅ = inr (g, w) ∧ diagrams_from_extraction g w.
Proof.
  apply (diagrams_only_by_extract_pv_slice sample_web ∅ sample_cube).
  reflexivity.
Defined.

(** C2: a path is built either from a list of (x, y) pixel pairs or from
    a SkyCoord, with or without a width; the run builds one of each kind
    and extracts a slice along every one of them. *)
Theorem pixel_and_sky_paths_sliced web fs fc :
  web !! cube_address = Some fc →
  ∃ g w, run web fs = inr (g, w) ∧ both_kinds_sliced g w.
Proof.
  intros H. run_notebook H E.
  observing E (λ g w, (g, paths_built (log w), extractions (log w))) as O.
  injection O as -> Hp He.
  unfold both_kinds_sliced. rewrite Hp, He.
  repeat split; reflexivity.
Qed.

Lemma pixel_and_sky_paths_sliced_witness :
  ∃ g w, run sample_web ∅ = inr (g, w) ∧ both_kinds_sliced g w.
Proof.
  apply (pixel_and_sky_paths_sliced sample_web ∅ sample_cube).
  reflexivity.
Defined.

(** C3: in every run the cube is read before any path is built, a path
    is built before a slice along it is extracted, a slice is extracted
    before its data is rendered, and the FITS file is written after the
    slice it holds was extracted. *)
Theorem steps_in_order web fs fc :
  web !! cube_address = Some fc →
  ∃ g w, run web fs = inr (g, w) ∧ chain_respected (log w).
Proof.
  intros H. run_notebook H E.
  observing E (λ g w, history_ok in_order [] (log w)) as O.
  by apply in_order_chain.
Qed.

Lemma steps_in_order_witness :
  ∃ g w, run sample_web ∅ = inr (g, w) ∧ chain_respected (log w).
Proof.
  apply (steps_in_order sample_web ∅ sample_cube).
  reflexivity.
Defined.

(** C4, as stated, fails: the first figure a run shows (cell 6, channel
    25 in pixel units, on plain axes) has an image and shows no axis
    label, neither set nor default. *)
Lemma first_figure_unlabelled :
  ∃ g w, run sample_web ∅ = inr (g, w) ∧ ¬ every_panel_labelled (outputs w).
Proof.
  assert (H : sample_web !! cube_address = Some sample_cube) by reflexivity.
  run_notebook H E.
  observing E (λ g w, head (outputs w)) as O.
  apply head_Some in O as [rest O]. rewrite O. intros Hall.
  edestruct Hall as [[x Hx] _].
  - apply list_elem_of_here.
  - simpl. apply list_elem_of_here.
  - discriminate.
  - discriminate Hx.
Qed.

(** C4 (amended): ten figures are shown, and in every one but the first
    (cell 6) each panel has an image and shows both axis labels.  They
    are the texts the code set, Offset [arcmin] and Velocity [km/s] on a
    position-velocity panel, Right Ascension and Declination with the
    cube's frame on a sky panel, in every figure but the third (cell 15,
    the first display of pvdiagram): there no label is set and the axes
    show the defaults of the WCS made from pvdiagram's header.  The
    panel of the first figure has an image and shows no axis label. *)
Theorem panels_labelled_except_first web fs fc :
  web !! cube_address = Some fc →
  ∃ g w, run web fs = inr (g, w)
         ∧ labelled_but_first (fc_radesys fc) g (outputs w).
Proof.
  intros H. run_notebook H E.
  observing E (λ g w, (pvdiagram g, outputs w)) as O.
  injection O as Hp Ho. unfold labelled_but_first. rewrite Hp, Ho. clear.
  split; [reflexivity|]. intros k fig a Hk Ha.
  do 10 (destruct k as [|k];
         [ injection Hk as <-; apply list_elem_of_In in Ha; simpl in Ha;
           repeat (destruct Ha as [<-|Ha]; [split; [discriminate|reflexivity]|]);
           destruct Ha
         | simpl in Hk ]).
  discriminate Hk.
Qed.

Lemma panels_labelled_except_first_witness :
  ∃ g w, run sample_web ∅ = inr (g, w) ∧ labelled_but_first "FK5" g (outputs w).
Proof.
  apply (panels_labelled_except_first sample_web ∅ sample_cube).
  reflexivity.
Defined.

Definition library_moveb (m : Move) : bool :=
  match m with
  | Imports i => from_library i
  | Takes s => match package_of (st_origin s) with
               | Some pkg => bool_decide (pkg ∈ external_packages)
               | None => false
               end
  end.

Lemma library_moveb_spec m : library_moveb m = true → library_move m.
Proof.
  destruct m as [i|s]; simpl.
  - apply from_library_import.
  - destruct (package_of (st_origin s)) as [pkg|] eqn:Hp; [|discriminate].
    intros Hpkg. exists pkg. split; [exact Hp|].
    by apply bool_decide_eq_true in Hpkg.
Qed.

Lemma defines_nothing_check cells :
  forallb (forallb (λ s, negb (defines s))) cells = true → defines_nothing cells.
Proof.
  intros Hc cell s Hcell Hs. rewrite forallb_forall in Hc.
  apply list_elem_of_In, Hc in Hcell. rewrite forallb_forall in Hcell.
  apply list_elem_of_In, Hcell in Hs. by apply negb_true_iff.
Qed.

Lemma every_step_check cells :
  forallb library_moveb (reading cells).2 = true → every_step_in_a_library cells.
Proof.
  intros Hc m Hm. rewrite forallb_forall in Hc.
  apply library_moveb_spec, Hc. by apply list_elem_of_In.
Qed.

(** C5: no cell of the notebook defines a function or a class (no def,
    class or lambda); every step its text writes (each call, subscript
    and operator) is carried out by a symbol imported from matplotlib,
    astropy, spectral_cube or pvextractor or by an object obtained from
    one of them; the imports and calls of a run are those written in the
    text, one for one and in order; and every call of the run goes
    through a name imported earlier from these libraries, the seven
    names the run binds by import. *)
Theorem every_call_into_a_library web fs fc :
  web !! cube_address = Some fc →
  ∃ g w, run web fs = inr (g, w) ∧ no_code_of_its_own source.notebook w.
Proof.
  intros H. run_notebook H E.
  observing E (λ g w,
    (in_the_log <$> log w,
     history_ok resolved [] (log w),
     bool_decide (map_Forall (λ _ i, from_library i = true) (namespace w)),
     bool_decide (dom (namespace w)
                  = list_to_set ["plt"; "u"; "wcs"; "SpectralCube";
                                 "extract_pv_slice"; "Path"; "SkyCoord"]))) as O.
  injection O as Ht Hl Hn Hd.
  apply bool_decide_eq_true in Hn. apply bool_decide_eq_true in Hd.
  split; [|split; [|split; [|split; [|split]]]].
  - apply defines_nothing_check. vm_compute. reflexivity.
  - apply every_step_check. vm_compute. reflexivity.
  - unfold text_is_the_run. rewrite Ht. vm_compute. reflexivity.
  - intros i f e Hi. exact (resolved_calls _ _ _ _ Hl Hi).
  - intros name imp Hi. apply from_library_import, (Hn name imp Hi).
  - exact Hd.
Qed.

Lemma every_call_into_a_library_witness :
  ∃ g w, run sample_web ∅ = inr (g, w) ∧ no_code_of_its_own source.notebook w.
Proof.
  apply (every_call_into_a_library sample_web ∅ sample_cube).
  reflexivity.
Defined.

(** C6: when a run ends, the first slice it extracted (pvdiagram, along
    the pixel path) has been written by its writeto method to
    saved_pvdiagram.fits, and the file there holds that diagram's data
    and header. *)
Theorem first_diagram_written_to_fits web fs fc :
  web !! cube_address = Some fc →
  ∃ g w, run web fs = inr (g, w) ∧ first_diagram_saved g w.
Proof.
  intros H. run_notebook H E.
  observing E (λ g w, (g, head (extractions (log w)), head (writes (log w)),
                       last_written "saved_pvdiagram.fits" (written w))) as O.
  injection O as -> He Hw Hl.
  split; [exact He|]. split; [reflexivity|]. split.
  - apply head_Some_elem_of. exact Hw.
  - eexists. rewrite files_lookup, Hl. repeat split; reflexivity.
Qed.

Lemma first_diagram_written_to_fits_witness :
  ∃ g w, run sample_web ∅ = inr (g, w) ∧ first_diagram_saved g w.
Proof.
  apply (first_diagram_written_to_fits sample_web ∅ sample_cube).
  reflexivity.
Defined.

(** C7: a run leaves the resources on line as they were, keeps the cube
    data it read unchanged in memory, and writes exactly
    saved_pvdiagram.fits, saved_pvdiagram.png and saved_pvdiagram.pdf:
    every other file of the working directory is as before the run. *)
Theorem only_the_three_outputs_change web fs fc :
  web !! cube_address = Some fc →
  ∃ g w, run web fs = inr (g, w) ∧ only_outputs_persist web fs fc w.
Proof.
  intros H. run_notebook H E.
  observing E (λ g w, (remote w, disk w, cubes w, (written w).*1,
                       (λ x, x.1.2) <$> writes (log w))) as O.
  injection O as Hr Hd Hc Hw Hl.
  repeat split; try assumption.
  - intros name Hn. rewrite files_frame, Hd; [done|by rewrite Hw].
  - by rewrite files_dom, Hd, Hw.
Qed.

Lemma only_the_three_outputs_change_witness :
  ∃ g w, run sample_web ∅ = inr (g, w)
         ∧ only_outputs_persist sample_web ∅ sample_cube w.
Proof.
  apply (only_the_three_outputs_change sample_web ∅ sample_cube).
  reflexivity.
Defined.

(** C8: in every figure shown, a path overlay drawn next to a diagram
    that was extracted at an explicit spacing has that same spacing:
    1 with pvdiagram and 5 with pvdiagram4, the only such pairings. *)
Theorem overlay_spacing_is_extraction_spacing web fs fc :
  web !! cube_address = Some fc →
  ∃ g w, run web fs = inr (g, w) ∧ overlay_spacing_matches g w.
Proof.
  intros H. run_notebook H E.
  observing E (λ g w, (g, forallb spacing_matches (outputs w),
                       explicit_pairings (outputs w))) as O.
  injection O as -> Hs Hp.
  split; [|exact Hp].
  intros fig a b pp im h s Hfig. rewrite forallb_forall in Hs.
  apply spacing_matches_spec, Hs. by apply list_elem_of_In.
Qed.

Lemma overlay_spacing_is_extraction_spacing_witness :
  ∃ g w, run sample_web ∅ = inr (g, w) ∧ overlay_spacing_matches g w.
Proof.
  apply (overlay_spacing_is_extraction_spacing sample_web ∅ sample_cube).
  reflexivity.
Defined.

(** C9: whenever imshow displays the data of a diagram, the axes it
    draws on were made with the projection wcs.WCS of that diagram's
    header; this happens seven times in a run. *)
Theorem diagram_shown_on_its_own_wcs web fs fc :
  web !! cube_address = Some fc →
  ∃ g w, run web fs = inr (g, w) ∧ shown_on_own_wcs g w.
Proof.
  intros H. run_notebook H E.
  observing E (λ g w, (g, forallb (on_own_wcs (figures w)) (log w),
                       diagrams_shown (log w))) as O.
  injection O as -> Hp Hd.
  split; [|exact Hd].
  intros i ax h. by apply on_own_wcs_spec.
Qed.

Lemma diagram_shown_on_its_own_wcs_witness :
  ∃ g w, run sample_web ∅ = inr (g, w) ∧ shown_on_own_wcs g w.
Proof.
  apply (diagram_shown_on_its_own_wcs sample_web ∅ sample_cube).
  reflexivity.
Defined.

(** C10: a run succeeds and saves the diagram also when
    saved_pvdiagram.fits exists beforehand: writeto is called with
    overwrite=True, so the old file is replaced. *)
Theorem save_replaces_existing_file web fs fc old :
  web !! cube_address = Some fc →
  fs !! "saved_pvdiagram.fits" = Some old →
  ∃ g w, run web fs = inr (g, w) ∧ diagram_file_replaced old g w.
Proof.
  intros H Hold. run_notebook H E.
  observing E (λ g w, (g, disk w,
                       last_written "saved_pvdiagram.fits" (written w))) as O.
  injection O as -> Hd Hl.
  split; [by rewrite Hd|]. by rewrite files_lookup, Hl.
Qed.

Lemma save_replaces_existing_file_witness :
  ∃ g w, run sample_web stale_files = inr (g, w)
         ∧ diagram_file_replaced (Raw "stale") g w.
Proof.
  apply (save_replaces_existing_file sample_web stale_files sample_cube);
    reflexivity.
Defined.

(** ** From one run to the next *)

(** A run hands the persistent state on as it found it, the files it
    writes apart. *)
Lemma run_frame web fs fc :
  web !! cube_address = Some fc →
  observe (λ _ w, (remote w, disk w)) (run web fs) = Some (web, fs).
Proof. intros H. rewrite (run_loaded _ _ _ H). vm_compute. reflexivity. Qed.

(** What it computes and writes, the time apart, depends on that state
    through the cube only. *)
Lemma run_repeatable web fs fc :
  web !! cube_address = Some fc →
  observe (λ g w, (g, timeless_write <$> written w)) (run web fs)
  = observe (λ g w, (g, timeless_write <$> written w))
      (session 0%nat (loaded ∅ ∅ fc)).
Proof. intros H. rewrite (run_loaded _ _ _ H). vm_compute. reflexivity. Qed.

Lemma last_written_timeless name (l l' : list (string * File)) :
  timeless_write <$> l' = timeless_write <$> l →
  timeless <$> last_written name l' = timeless <$> last_written name l.
Proof.
  revert l'. induction l as [|[n f] l IH]; intros [|[n' f'] l'] Hl;
    try discriminate; [reflexivity|].
  injection Hl as Hn Hf Hl. simpl in Hn, Hf. subst n'.
  specialize (IH l' Hl). simpl.
  destruct (last_written name l') as [x'|], (last_written name l) as [x|];
    try discriminate; [exact IH|].
  destruct (decide (n = name)); [|reflexivity].
  simpl. f_equal. exact Hf.
Qed.

Lemma rewritten_same_but_for_time (fs : gmap string File) l l' :
  timeless_write <$> l' = timeless_write <$> l →
  same_but_for_time (foldl write_file (foldl write_file fs l) l')
                    (foldl write_file fs l).
Proof.
  intros Hl name. pose proof (last_written_timeless name l l' Hl) as Hn.
  rewrite (foldl_write_lookup l'), (foldl_write_lookup l) in *.
  destruct (last_written name l') as [x'|], (last_written name l) as [x|];
    try discriminate; [exact Hn|reflexivity].
Qed.

(** ** What every cell keeps *)

#[global] Instance after_preorder : PreOrder after.
Proof.
  split.
  - intros w. split; try reflexivity. exists []. by rewrite app_nil_r.
  - intros w1 w2 w3 [Hr1 Hd1 (l1 & Hw1 & Hf1) Hc1 Hl1 Hn1]
                    [Hr2 Hd2 (l2 & Hw2 & Hf2) Hc2 Hl2 Hn2].
    split; try (etrans; eassumption).
    exists (l1 ++ l2)%list. split.
    + by rewrite Hw2, Hw1, (assoc_L (++)%list).
    + by apply Forall_app.
Qed.

Lemma keeps_ret {A} (a : A) : keeps (mret a).
Proof. intros w a' w' [= _ <-]. reflexivity. Qed.

Lemma keeps_bind {A B} (m : NB A) (k : A → NB B) :
  keeps m → (∀ a, keeps (k a)) → keeps (m ≫= k).
Proof.
  intros Hm Hk w b w'. rewrite mbind_unfold.
  destruct (m w) as [e|[a w1]] eqn:E; [discriminate|].
  intros Hb. etrans; [exact (Hm _ _ _ E) | exact (Hk _ _ _ _ Hb)].
Qed.

Lemma keeps_raise {A} (e : PyError) : keeps (raise (A:=A) e).
Proof. intros w a w' [=]. Qed.

Lemma keeps_get : keeps get.
Proof. intros w a w' [= _ <-]. reflexivity. Qed.

Lemma keeps_deref {A} (o : option A) : keeps (deref o).
Proof. destruct o; [apply keeps_ret | apply keeps_raise]. Qed.

Lemma keeps_modify (f : World → World) : (∀ w, after w (f w)) → keeps (modify f).
Proof. intros Hf w a w' [= _ <-]. apply Hf. Qed.

(** What the field updates keep. *)
Lemma after_set_log k w : after w (set_log (λ l, l ++ k)%list w).
Proof. split; try reflexivity; [exists []; by rewrite app_nil_r | by eexists]. Qed.

Lemma after_set_cubes k w : after w (set_cubes (λ l, l ++ k)%list w).
Proof. split; try reflexivity; [exists []; by rewrite app_nil_r | by eexists]. Qed.

Lemma after_set_written name f w :
  name ∈ output_files → after w (set_written (λ l, l ++ [(name, f)])%list w).
Proof.
  intros Hn. split; try reflexivity.
  exists [(name, f)]. split; [reflexivity|]. constructor; [exact Hn | constructor].
Qed.

Lemma after_set_namespace name i w : after w (set_namespace <[name := i]> w).
Proof.
  split; try reflexivity; [exists []; by rewrite app_nil_r|].
  simpl. rewrite dom_insert_L. apply union_subseteq_r.
Qed.

Lemma after_set_rcParams f w : after w (set_rcParams f w).
Proof. split; try reflexivity. exists []. by rewrite app_nil_r. Qed.

Lemma after_set_figures f w : after w (set_figures f w).
Proof. split; try reflexivity. exists []. by rewrite app_nil_r. Qed.

Lemma after_set_managers f w : after w (set_managers f w).
Proof. split; try reflexivity. exists []. by rewrite app_nil_r. Qed.

Lemma after_set_outputs f w : after w (set_outputs f w).
Proof. split; try reflexivity. exists []. by rewrite app_nil_r. Qed.

Create HintDb keeps.

#[local] Hint Resolve keeps_ret keeps_raise keeps_get keeps_deref
  after_set_log after_set_cubes after_set_namespace after_set_rcParams
  after_set_figures after_set_managers after_set_outputs : keeps.

(** [keeps_steps]: follow the computation, one bind or branch at a time. *)
Ltac keeps_step :=
  lazymatch goal with
  | |- keeps (mbind _ _) => apply keeps_bind; [|intros ?]
  | |- keeps (modify _) => apply keeps_modify; intros ?
  | |- keeps (match ?x with _ => _ end) => destruct x
  | |- keeps (let _ := _ in _) => cbv zeta
  | |- _ => solve [eauto with keeps]
  end.

Ltac keeps_steps := repeat keeps_step.

Lemma keeps_import i : keeps (import i).
Proof. unfold import. keeps_steps. Qed.

Lemma keeps_resolve f : keeps (resolve f).
Proof. unfold resolve. keeps_steps. Qed.

Lemma keeps_emit f e : keeps (emit f e).
Proof. unfold emit. keeps_steps. Qed.

#[local] Hint Resolve keeps_import keeps_resolve keeps_emit : keeps.

Lemma keeps_call f e : keeps (call f e).
Proof. unfold call. keeps_steps. Qed.

#[local] Hint Resolve keeps_call : keeps.

Lemma keeps_read url : keeps (SpectralCube.read url).
Proof. unfold SpectralCube.read. keeps_steps. Qed.

Lemma keeps_getitem c i : keeps (SpectralCube.getitem c i).
Proof. unfold SpectralCube.getitem. keeps_steps. Qed.

Lemma keeps_max c axis : keeps (SpectralCube.max c axis).
Proof. unfold SpectralCube.max. keeps_steps. Qed.

Lemma keeps_times v un : keeps (times v un).
Proof. unfold times. keeps_steps. Qed.

Lemma keeps_per a b : keeps (per a b).
Proof. unfold per. keeps_steps. Qed.

Lemma keeps_SkyCoord lon lat frame : keeps (SkyCoord lon lat frame).
Proof. unfold SkyCoord. keeps_steps. Qed.

Lemma keeps_Path coords width : keeps (Path coords width).
Proof. unfold Path. keeps_steps. Qed.

Lemma keeps_extract_pv_slice cube path spacing :
  keeps (extract_pv_slice cube path spacing).
Proof. unfold extract_pv_slice. keeps_steps. Qed.

Lemma keeps_WCS hd : keeps (wcs.WCS hd).
Proof. unfold wcs.WCS. keeps_steps. Qed.

Lemma keeps_radesys w : keeps (radesys w).
Proof. unfold radesys. keeps_steps. Qed.

Lemma keeps_get_figure fig : keeps (get_figure fig).
Proof. unfold get_figure. keeps_steps. Qed.

#[local] Hint Resolve keeps_read keeps_getitem keeps_max keeps_times keeps_per
  keeps_SkyCoord keeps_Path keeps_extract_pv_slice keeps_WCS keeps_radesys
  keeps_get_figure : keeps.

Lemma keeps_get_axes ax : keeps (get_axes ax).
Proof. unfold get_axes. keeps_steps. Qed.

Lemma keeps_put_figure fig f : keeps (put_figure fig f).
Proof. unfold put_figure. keeps_steps. Qed.

#[local] Hint Resolve keeps_get_axes keeps_put_figure : keeps.

Lemma keeps_put_axes ax a : keeps (put_axes ax a).
Proof. unfold put_axes. keeps_steps. Qed.

#[local] Hint Resolve keeps_put_axes : keeps.

Lemma keeps_imshow ax X origin : keeps (imshow ax X origin).
Proof. unfold imshow. keeps_steps. Qed.

Lemma keeps_set_xlabel ax s : keeps (set_xlabel ax s).
Proof. unfold set_xlabel. keeps_steps. Qed.

Lemma keeps_set_ylabel ax s : keeps (set_ylabel ax s).
Proof. unfold set_ylabel. keeps_steps. Qed.

Lemma keeps_set_aspect ax x : keeps (set_aspect ax x).
Proof. unfold set_aspect. keeps_steps. Qed.

Lemma keeps_coords ax i : keeps (coords ax i).
Proof. unfold coords. keeps_steps. Qed.

Lemma keeps_set_format_unit c un : keeps (set_format_unit c un).
Proof. unfold set_format_unit. keeps_steps. Qed.

Lemma keeps_show_on_axis p ax spacing style :
  keeps (show_on_axis p ax spacing style).
Proof. unfold show_on_axis. keeps_steps. Qed.

Lemma keeps_rcParams_setitem key val : keeps (plt.rcParams_setitem key val).
Proof. unfold plt.rcParams_setitem. keeps_steps. Qed.

Lemma keeps_new_figure figsize : keeps (plt.new_figure figsize).
Proof. unfold plt.new_figure. keeps_steps. Qed.

#[local] Hint Resolve keeps_imshow keeps_set_xlabel keeps_set_ylabel
  keeps_set_aspect keeps_coords keeps_set_format_unit keeps_show_on_axis
  keeps_rcParams_setitem keeps_new_figure : keeps.

Lemma keeps_figure figsize : keeps (plt.figure figsize).
Proof. unfold plt.figure. keeps_steps. Qed.

Lemma keeps_gcf : keeps plt.gcf.
Proof. unfold plt.gcf. keeps_steps. Qed.

Lemma keeps_add_subplot fig pos projection :
  keeps (plt.add_subplot fig pos projection).
Proof. unfold plt.add_subplot. keeps_steps. Qed.

#[local] Hint Resolve keeps_figure keeps_gcf keeps_add_subplot : keeps.

Lemma keeps_subplot pos projection : keeps (plt.subplot pos projection).
Proof. unfold plt.subplot. keeps_steps. Qed.

Lemma keeps_gca : keeps plt.gca.
Proof. unfold plt.gca. keeps_steps. Qed.

#[local] Hint Resolve keeps_subplot keeps_gca : keeps.

Lemma keeps_plt_imshow X origin : keeps (plt.imshow X origin).
Proof. unfold plt.imshow. keeps_steps. Qed.

Lemma keeps_colorbar mappable : keeps (plt.colorbar mappable).
Proof. unfold plt.colorbar. keeps_steps. Qed.

Lemma keeps_set_label cb s : keeps (set_label cb s).
Proof. unfold set_label. keeps_steps. Qed.

Lemma keeps_flush_figures : keeps flush_figures.
Proof. unfold flush_figures. keeps_steps. Qed.

#[local] Hint Resolve keeps_plt_imshow keeps_colorbar keeps_set_label
  keeps_flush_figures : keeps.

(** The two calls that write a file do so under the name given. *)
Lemma keeps_savefig fig fname bbox_inches :
  fname ∈ output_files → keeps (savefig fig fname bbox_inches).
Proof.
  intros Hn. unfold savefig. keeps_steps. by apply after_set_written.
Qed.

Lemma keeps_writeto hdu name overwrite :
  name ∈ output_files → keeps (writeto hdu name overwrite).
Proof.
  intros Hn. unfold writeto. keeps_steps; by apply after_set_written.
Qed.

Lemma keeps_run_cell {A} (cell : NB A) : keeps cell → keeps (run_cell cell).
Proof. intros Hc. unfold run_cell. keeps_steps. Qed.

Lemma code_cell_keeps {A} (cell : NB A) : code_cell cell → keeps cell.
Proof.
  destruct 1;
    cbv delta [cell_2 cell_4 cell_6 cell_8 cell_10 cell_13 cell_15 cell_17
               cell_19 cell_20 cell_23 cell_24 cell_26 cell_27 cell_28
               cell_30 cell_33 cell_34 cell_36 cell_38 cell_40 cell_42
               import_as from_import];
    cbv beta; keeps_steps.
  - apply keeps_writeto, (bool_decide_eq_true_1 _). reflexivity.
  - apply keeps_savefig, (bool_decide_eq_true_1 _). reflexivity.
  - apply keeps_savefig, (bool_decide_eq_true_1 _). reflexivity.
Qed.

(** However the cells are executed — in any order, any number of times,
    on whatever their variables hold — the world stays [after] the one
    the execution started in. *)
Lemma executes_after w w' : rtc executes w w' → after w w'.
Proof.
  induction 1 as [w|w w1 w' [A cell a Hc Hrun] _ IH]; [reflexivity|].
  etrans; [|exact IH].
  exact (keeps_run_cell cell (code_cell_keeps cell Hc) _ _ _ Hrun).
Qed.

(** Runs are executions of cells. *)
Lemma reaches_ret {A} (a : A) : reaches (mret a).
Proof. intros w a' w' [= _ <-]. reflexivity. Qed.

Lemma reaches_bind {A B} (m : NB A) (k : A → NB B) :
  reaches m → (∀ a, reaches (k a)) → reaches (m ≫= k).
Proof.
  intros Hm Hk w b w'. rewrite mbind_unfold.
  destruct (m w) as [e|[a w1]] eqn:E; [discriminate|].
  intros Hb. etrans; [exact (Hm _ _ _ E) | exact (Hk _ _ _ _ Hb)].
Qed.

Lemma reaches_run_cell {A} (cell : NB A) : code_cell cell → reaches (run_cell cell).
Proof. intros Hc w a w' Hrun. apply rtc_once. by eapply exec_cell. Qed.

Ltac known_cell :=
  lazymatch goal with
  | |- code_cell cell_2 => exact is_cell_2
  | |- code_cell cell_4 => exact is_cell_4
  | |- code_cell (cell_6 _) => exact (is_cell_6 _)
  | |- code_cell cell_8 => exact is_cell_8
  | |- code_cell (cell_10 _ _) => exact (is_cell_10 _ _)
  | |- code_cell (cell_13 _ _) => exact (is_cell_13 _ _)
  | |- code_cell (cell_15 _) => exact (is_cell_15 _)
  | |- code_cell (cell_17 _) => exact (is_cell_17 _)
  | |- code_cell (cell_19 _) => exact (is_cell_19 _)
  | |- code_cell (cell_20 _ _ _ _) => exact (is_cell_20 _ _ _ _)
  | |- code_cell cell_23 => exact is_cell_23
  | |- code_cell cell_24 => exact is_cell_24
  | |- code_cell (cell_26 _ _) => exact (is_cell_26 _ _)
  | |- code_cell (cell_27 _ _) => exact (is_cell_27 _ _)
  | |- code_cell (cell_28 _ _ _ _) => exact (is_cell_28 _ _ _ _)
  | |- code_cell (cell_30 _ _ _ _) => exact (is_cell_30 _ _ _ _)
  | |- code_cell cell_33 => exact is_cell_33
  | |- code_cell (cell_34 _ _) => exact (is_cell_34 _ _)
  | |- code_cell (cell_36 _ _ _ _) => exact (is_cell_36 _ _ _ _)
  | |- code_cell (cell_38 _ _ _) => exact (is_cell_38 _ _ _)
  | |- code_cell (cell_40 _) => exact (is_cell_40 _)
  | |- code_cell (cell_42 _) => exact (is_cell_42 _)
  end.

Ltac reaches_steps :=
  repeat lazymatch goal with
    | |- reaches (mbind _ _) => apply reaches_bind; [|intros ?]
    | |- reaches (mret _) => apply reaches_ret
    | |- reaches (run_cell _) => apply reaches_run_cell; known_cell
    | |- reaches (match ?x with _ => _ end) => destruct x
    | |- reaches (let _ := _ in _) => cbv zeta
    end.

Lemma reaches_session cube : reaches (session cube).
Proof. unfold session. reaches_steps. Qed.

Lemma reaches_notebook : reaches notebook.
Proof. unfold notebook. reaches_steps. apply reaches_session. Qed.

Lemma run_executes web fs g w :
  run web fs = inr (g, w) → rtc executes (boot web fs) w.
Proof. apply reaches_notebook. Qed.

Lemma loading_executes web fs fc :
  web !! cube_address = Some fc →
  rtc executes (boot web fs) (loaded web fs fc).
Proof.
  intros H.
  assert (Hr : reaches (run_cell cell_2;; cube ← run_cell cell_4; mret cube))
    by reaches_steps.
  apply (Hr _ 0%nat). by rewrite (load_step _ _ _ _ H).
Qed.

(** X1: however the cells are executed (any order, any number of times,
    any values in their variables), the resources on line are never
    modified. *)
Theorem resources_on_line_never_modified w w' :
  rtc executes w w' → remote w' = remote w.
Proof. intros H. apply after_remote, executes_after, H. Qed.

Lemma resources_on_line_never_modified_witness :
  remote (loaded sample_web ∅ sample_cube) = remote (boot sample_web ∅).
Proof.
  apply (resources_on_line_never_modified
           (boot sample_web ∅) (loaded sample_web ∅ sample_cube)).
  apply (loading_executes sample_web ∅ sample_cube). reflexivity.
Defined.

Lemma after_files_other w w' name :
  after w w' → name ∉ output_files → files w' !! name = files w !! name.
Proof.
  intros [_ Hd (l & Hw & Hl) _ _ _] Hn.
  unfold files. rewrite Hd, Hw, foldl_app, foldl_write_lookup.
  rewrite last_written_None; [done|].
  intros Hin. apply list_elem_of_fmap in Hin as (nf & -> & Hnf).
  rewrite Forall_forall in Hl. exact (Hn (Hl nf Hnf)).
Qed.

Lemma after_files_stay w w' name :
  after w w' → is_Some (files w !! name) → is_Some (files w' !! name).
Proof.
  intros [_ Hd (l & Hw & Hl) _ _ _] Hs.
  unfold files. rewrite Hd, Hw, foldl_app, foldl_write_lookup.
  by destruct (last_written name l).
Qed.

(** X2: however the cells are executed, a file of the working directory
    under any name but the three output names is never written: it is
    afterwards what it was before. *)
Theorem other_files_never_touched w w' name :
  rtc executes w w' → name ∉ output_files →
  files w' !! name = files w !! name.
Proof. intros H. apply after_files_other, executes_after, H. Qed.

Lemma other_files_never_touched_witness :
  ∃ g w, run sample_web {[ "notes.txt" := Raw "mine" ]} = inr (g, w) ∧
         written w ≠ [] ∧ files w !! "notes.txt" = Some (Raw "mine").
Proof.
  assert (H : sample_web !! cube_address = Some sample_cube) by reflexivity.
  run_notebook H E.
  split.
  - observing E (λ g w, length (written w)) as O.
    intros Hw. rewrite Hw in O. discriminate O.
  - rewrite (other_files_never_touched
               (boot sample_web {[ "notes.txt" := Raw "mine" ]}) w "notes.txt").
    + reflexivity.
    + etrans; [exact (loading_executes _ _ _ H)|].
      exact (reaches_session _ _ _ _ E).
    + apply (bool_decide_eq_false_1 ("notes.txt" ∈ output_files)). reflexivity.
Defined.

(** X3: however the cells are executed, no file is ever deleted: a file
    that exists still exists afterwards. *)
Theorem files_never_deleted w w' name :
  rtc executes w w' → is_Some (files w !! name) → is_Some (files w' !! name).
Proof. intros H. apply after_files_stay, executes_after, H. Qed.

Lemma files_never_deleted_witness :
  ∃ g w, run sample_web stale_files = inr (g, w) ∧
         last_written "saved_pvdiagram.fits" (written w) = Some (Fits (pvdiagram g)) ∧
         is_Some (files w !! "saved_pvdiagram.fits").
Proof.
  assert (H : sample_web !! cube_address = Some sample_cube) by reflexivity.
  run_notebook H E.
  split.
  - observing E (λ g w, (g, last_written "saved_pvdiagram.fits" (written w))) as O.
    injection O as -> Hw. exact Hw.
  - apply (files_never_deleted (boot sample_web stale_files) w
             "saved_pvdiagram.fits").
    + etrans; [exact (loading_executes _ _ _ H)|].
      exact (reaches_session _ _ _ _ E).
    + exists (Raw "stale"). reflexivity.
Defined.

(** X4: however the cells are executed, a cube held in memory is never
    modified nor dropped: what a reference designates, it designates
    afterwards. *)
Theorem cubes_in_memory_never_modified w w' (c : Cube) x :
  rtc executes w w' → cubes w !! c = Some x → cubes w' !! c = Some x.
Proof.
  intros H Hc. apply executes_after in H as [_ _ _ [k Hk] _ _].
  rewrite Hk. by apply lookup_app_l_Some.
Qed.

Lemma cubes_in_memory_never_modified_witness :
  ∃ g w, run sample_web ∅ = inr (g, w) ∧
         cubes w !! 0%nat = Some (cube_address, sample_cube).
Proof.
  assert (H : sample_web !! cube_address = Some sample_cube) by reflexivity.
  run_notebook H E.
  apply (cubes_in_memory_never_modified (loaded sample_web ∅ sample_cube) w).
  - exact (reaches_session _ _ _ _ E).
  - reflexivity.
Defined.

(** ** More about a run *)

(** X5: what a run computes and shows, and which files it writes, does
    not depend on the resources on line but the cube, nor on what the
    directory holds under the three output names: two runs that find the
    same cube at the address and directories that differ in these files
    only end with the same variables, imports, rcParams, figures and
    outputs, and write and log the same, the time held by the pictures
    apart. *)
Theorem run_depends_on_the_cube_only web fs web' fs' fc :
  web !! cube_address = Some fc → web' !! cube_address = Some fc →
  (∀ name, name ∉ output_files → fs !! name = fs' !! name) →
  ∃ v, observe computed (run web fs) = Some v ∧
       observe computed (run web' fs') = Some v.
Proof.
  intros H H' _. rewrite (run_loaded _ _ _ H), (run_loaded _ _ _ H').
  eexists. split; vm_compute; reflexivity.
Qed.

Lemma run_depends_on_the_cube_only_witness :
  ∃ v, observe computed (run sample_web ∅) = Some v ∧
       observe computed (run sample_web stale_files) = Some v.
Proof.
  apply (run_depends_on_the_cube_only sample_web ∅ sample_web stale_files
           sample_cube); [reflexivity|reflexivity|].
  intros name Hn. rewrite lookup_empty. symmetry.
  apply lookup_singleton_ne. intros <-. apply Hn.
  apply (bool_decide_eq_true_1 _). reflexivity.
Defined.

(** X6: the two pictures saved are of the figure [fig] of cell 38, the
    last one shown, with the tight bounding box; that figure shows
    pvdiagram4, not the diagram that was saved as FITS under the same
    base name. *)
Theorem pictures_are_of_the_last_figure web fs fc :
  web !! cube_address = Some fc →
  ∃ g w, run web fs = inr (g, w) ∧ pictures_of_last_figure g w.
Proof.
  intros H. run_notebook H E.
  observing E (λ g w,
    (g, figures w !! fig g, last (outputs w),
     last_written "saved_pvdiagram.png" (written w),
     last_written "saved_pvdiagram.pdf" (written w))) as O.
  injection O as -> Hf Hl Hpng Hpdf.
  eexists. split; [exact Hf|]. split; [exact Hl|].
  rewrite !files_lookup, Hpng, Hpdf.
  split; [reflexivity|]. split; [reflexivity|].
  split; [reflexivity|discriminate].
Qed.

Lemma pictures_are_of_the_last_figure_witness :
  ∃ g w, run sample_web stale_files = inr (g, w) ∧ pictures_of_last_figure g w.
Proof.
  apply (pictures_are_of_the_last_figure sample_web stale_files sample_cube).
  reflexivity.
Defined.

(** X7: a run makes ten figures; each is shown once, at the end of the
    cell that made it, none is left open at the end, and no later cell
    draws on a figure already shown: the figures are at the end as they
    were shown. *)
Theorem every_figure_shown_once web fs fc :
  web !! cube_address = Some fc →
  ∃ g w, run web fs = inr (g, w) ∧ figures_shown_once w.
Proof.
  intros H. run_notebook H E.
  observing E (λ g w, (outputs w, figures w, managers w)) as O.
  injection O as Ho Hf Hm. unfold figures_shown_once.
  rewrite Ho, Hf, Hm. repeat split; reflexivity.
Qed.

Lemma every_figure_shown_once_witness :
  ∃ g w, run sample_web ∅ = inr (g, w) ∧ figures_shown_once w.
Proof.
  apply (every_figure_shown_once sample_web ∅ sample_cube). reflexivity.
Defined.

(** X8: every colorbar of a run is labelled Brightness Temperature [K]
    and is the colorbar of a diagram's image, in the figure that shows
    that image; there are four. *)
Theorem colorbars_labelled_and_attached web fs fc :
  web !! cube_address = Some fc →
  ∃ g w, run web fs = inr (g, w) ∧ colorbars_labelled (outputs w).
Proof.
  intros H. run_notebook H E.
  observing E (λ g w, outputs w) as O. rewrite O. clear O E.
  split; [|reflexivity]. intros k fig cb Hk Hcb.
  do 10 (destruct k as [|k];
         [ injection Hk as <-; apply list_elem_of_In in Hcb; simpl in Hcb;
           repeat (destruct Hcb as [<-|Hcb];
                   [split; [reflexivity|split; [reflexivity|]];
                    eexists _, _, _; repeat split; reflexivity|]);
           destruct Hcb
         | simpl in Hk ]).
  discriminate Hk.
Qed.

Lemma colorbars_labelled_and_attached_witness :
  ∃ g w, run sample_web ∅ = inr (g, w) ∧ colorbars_labelled (outputs w).
Proof.
  apply (colorbars_labelled_and_attached sample_web ∅ sample_cube). reflexivity.
Defined.

(** X9: in every panel shown, the x label is Offset [arcmin] exactly
    when the first coordinate is formatted in arcmin, and the y label is
    Velocity [km/s] exactly when the second is formatted in km/s. *)
Theorem labels_agree_with_tick_units web fs fc :
  web !! cube_address = Some fc →
  ∃ g w, run web fs = inr (g, w) ∧ units_match_labels (outputs w).
Proof.
  intros H. run_notebook H E.
  observing E (λ g w,
    bool_decide (Forall (λ fig : Figure, Forall (λ a : Axes,
      (ax_xlabel a = Some "Offset [arcmin]"
       ↔ ax_format_unit a !! 0%nat = Some u.arcmin) ∧
      (ax_ylabel a = Some "Velocity [km/s]"
       ↔ ax_format_unit a !! 1%nat = Some (u.div u.km u.s)))
      (fig_axes fig)) (outputs w))) as O.
  apply bool_decide_eq_true in O. rewrite Forall_forall in O.
  intros fig a Hfig Ha. specialize (O fig Hfig).
  rewrite Forall_forall in O. exact (O a Ha).
Qed.

Lemma labels_agree_with_tick_units_witness :
  ∃ g w, run sample_web ∅ = inr (g, w) ∧ units_match_labels (outputs w).
Proof.
  apply (labels_agree_with_tick_units sample_web ∅ sample_cube). reflexivity.
Defined.

Lemma follows_extraction_spec fig a b pp im h :
  pairings_ok follows_extraction fig = true →
  a ∈ fig_axes fig → b ∈ fig_axes fig → pp ∈ ax_patches a → im ∈ ax_images b →
  im_data im = data h →
  pp_path pp = pv_path h ∧ (pv_spacing h = None → pp_spacing pp = Int 1).
Proof.
  unfold pairings_ok. intros Hok Ha Hb Hpp Him Hd.
  rewrite forallb_forall in Hok.
  assert (Hh : In h (shown_in fig)).
  { apply list_elem_of_In. by apply (shown_in_spec fig b im). }
  specialize (Hok h Hh). rewrite forallb_forall in Hok.
  assert (Ho : In pp (overlays_in fig)).
  { apply list_elem_of_In, list_elem_of_bind. by exists a. }
  specialize (Hok pp Ho). unfold follows_extraction in Hok.
  apply andb_prop in Hok as [Hp Hs]. apply bool_decide_eq_true in Hp.
  split; [exact Hp|]. intros Hn. rewrite Hn in Hs.
  by apply bool_decide_eq_true in Hs.
Qed.

(** X10: in every figure shown, a path overlay drawn next to a diagram
    is of the path that diagram was extracted along, and where the
    extraction left the spacing out the overlay is drawn at spacing 1;
    a run has five such pairings. *)
Theorem overlay_is_of_the_extraction_path web fs fc :
  web !! cube_address = Some fc →
  ∃ g w, run web fs = inr (g, w) ∧ overlays_follow_extraction (outputs w).
Proof.
  intros H. run_notebook H E.
  observing E (λ g w, (forallb (pairings_ok follows_extraction) (outputs w),
                       length (pairings (outputs w)))) as O.
  injection O as Hs Hp.
  split; [|exact Hp].
  intros fig a b pp im h Hfig. rewrite forallb_forall in Hs.
  apply follows_extraction_spec, Hs. by apply list_elem_of_In.
Qed.

Lemma overlay_is_of_the_extraction_path_witness :
  ∃ g w, run sample_web ∅ = inr (g, w) ∧ overlays_follow_extraction (outputs w).
Proof.
  apply (overlay_is_of_the_extraction_path sample_web ∅ sample_cube).
  reflexivity.
Defined.

Lemma on_sky_wcs_spec c figs l i f ax p :
  forallb (on_sky_wcs c figs) l = true →
  l !! i = Some (EvCall f (RenderPixels ax (value p))) →
  projection_of figs ax = Some (sky_projection c f).
Proof.
  intros Hok Hi. rewrite forallb_forall in Hok.
  apply list_elem_of_lookup_2, list_elem_of_In, Hok in Hi.
  by apply bool_decide_eq_true in Hi.
Qed.

(** X11: whenever an image of the cube (channel 25 or the maximum along
    the spectral axis) is displayed by an axes' imshow, the axes were made
    with the projection cube.wcs.celestial; the one display through
    plt.imshow (cell 6) is on axes with no projection.  A run displays
    eight cube images. *)
Theorem cube_shown_on_celestial_wcs web fs fc :
  web !! cube_address = Some fc →
  ∃ g w, run web fs = inr (g, w) ∧ cube_images_on_sky_wcs g w.
Proof.
  intros H. run_notebook H E.
  observing E (λ g w, (g, forallb (on_sky_wcs (cube g) (figures w)) (log w),
                       cube_images_shown (log w))) as O.
  injection O as -> Hs Hc.
  split; [|exact Hc].
  intros i f ax p Hi. exact (on_sky_wcs_spec _ _ _ _ _ _ _ Hs Hi).
Qed.

Lemma cube_shown_on_celestial_wcs_witness :
  ∃ g w, run sample_web ∅ = inr (g, w) ∧ cube_images_on_sky_wcs g w.
Proof.
  apply (cube_shown_on_celestial_wcs sample_web ∅ sample_cube). reflexivity.
Defined.

(** X12: the face colour that cell 2 stores in rcParams is still there at
    the end of the run, and every figure shown has it. *)
Theorem figures_on_the_set_facecolor web fs fc :
  web !! cube_address = Some fc →
  ∃ g w, run web fs = inr (g, w) ∧ facecolor_from_rcParams w.
Proof.
  intros H. run_notebook H E.
  observing E (λ g w, (rcParams w !! "figure.facecolor",
                       fig_facecolor <$> outputs w)) as O.
  injection O as Hr Hf. unfold facecolor_from_rcParams. rewrite Hr.
  split; [reflexivity|]. intros fig Hfig.
  apply (list_elem_of_fmap_2 fig_facecolor) in Hfig. rewrite Hf in Hfig.
  apply list_elem_of_In in Hfig. simpl in Hfig.
  repeat (destruct Hfig as [Hfig|Hfig]; [by symmetry|]). destruct Hfig.
Qed.

Lemma figures_on_the_set_facecolor_witness :
  ∃ g w, run sample_web ∅ = inr (g, w) ∧ facecolor_from_rcParams w.
Proof.
  apply (figures_on_the_set_facecolor sample_web ∅ sample_cube). reflexivity.
Defined.

(** X13: every figure shown is either one panel at the default size or
    two panels side by side at 12 by 6, the maximum of the cube with one
    path overlay on the left (121) and a diagram with no overlay on the
    right (122); the first four and the sixth figure have one panel, the
    other five have two. *)
Theorem figures_have_one_or_two_panels web fs fc :
  web !! cube_address = Some fc →
  ∃ g w, run web fs = inr (g, w) ∧ panel_layout g w.
Proof.
  intros H. run_notebook H E.
  observing E (λ g w, (cube g, outputs w)) as O.
  injection O as Hc Ho. unfold panel_layout. rewrite Hc, Ho. clear.
  split; [|reflexivity]. intros fig Hfig.
  apply list_elem_of_In in Hfig. simpl in Hfig.
  repeat (destruct Hfig as [<-|Hfig];
          [first [ left; split; reflexivity
                 | right; split; [reflexivity|];
                   eexists _, _, _; repeat split; reflexivity ]|]).
  destruct Hfig.
Qed.

Lemma figures_have_one_or_two_panels_witness :
  ∃ g w, run sample_web ∅ = inr (g, w) ∧ panel_layout g w.
Proof.
  apply (figures_have_one_or_two_panels sample_web ∅ sample_cube). reflexivity.
Defined.

Lemma run_offline_witness :
  run (∅ : gmap string FitsCube) (∅ : gmap string File)
  = inl (URLError cube_address).
Proof. apply (run_offline ∅ ∅). reflexivity. Defined.

(** X15: nothing but the persistent state passes from one run to the
    next: a second run, in a fresh kernel, on what the first left behind
    completes although the output files now exist, computes the same
    variables, leaves the resources on line as they were and the
    directory with the same files, the time held by the two pictures
    apart. *)
Theorem second_run_repeats_the_first web fs fc :
  web !! cube_address = Some fc →
  ∃ g w w', run web fs = inr (g, w) ∧
            run (remote w) (files w) = inr (g, w') ∧
            remote w' = remote w ∧
            same_but_for_time (files w') (files w).
Proof.
  intros H.
  pose proof (run_frame web fs fc H) as F1.
  pose proof (run_repeatable web fs fc H) as I1.
  destruct (run web fs) as [e|[g w]]; [discriminate F1|].
  injection F1 as Hr Hd.
  pose proof (run_frame web (files w) fc H) as F2.
  pose proof (run_repeatable web (files w) fc H) as I2.
  rewrite <- I1 in I2. clear I1.
  exists g, w. rewrite Hr.
  destruct (run web (files w)) as [e|[g' w']]; [discriminate F2|].
  injection F2 as Hr' Hd'. injection I2 as -> Hw.
  exists w'. split; [reflexivity|]. split; [reflexivity|]. split; [exact Hr'|].
  unfold files at 1. rewrite Hd'. unfold files.
  apply rewritten_same_but_for_time, Hw.
Qed.

Lemma second_run_repeats_the_first_witness :
  ∃ g w w', run sample_web stale_files = inr (g, w) ∧
            run (remote w) (files w) = inr (g, w') ∧
            remote w' = remote w ∧
            same_but_for_time (files w') (files w).
Proof.
  apply (second_run_repeats_the_first sample_web stale_files sample_cube).
  reflexivity.
Defined.
